(** * FEFF output parsers ([pymatgen.io.feff.outputs]): a shallow embedding

    The module reads the [ldosNN.dat] and [xmu.dat] files written by FEFF
    and assembles density-of-states objects, charge-transfer tables and
    absorption spectra.  Python exceptions are an error monad, dictionaries
    are finite maps, numpy arrays are an inductive type keeping the shape,
    and the collaborators that live outside this module (the file system,
    [numpy.loadtxt], [float], [Header], [Potential], [Tags]) are the fields
    of one interface, [Env]. *)

From stdpp Require Import gmap strings list fin_maps pretty.

Local Open Scope string_scope.
Local Open Scope list_scope.
Local Open Scope nat_scope.

(** ** Exceptions and the error monad *)

Inductive exn : Type :=
  | IOError
  | IndexError
  | KeyError
  | ValueError
  | TypeError
  | AttributeError.

Inductive result (A : Type) : Type :=
  | Ok (a : A)
  | Raise (e : exn).
Arguments Ok {A} a.
Arguments Raise {A} e.

#[global] Instance exn_eq_dec : EqDecision exn.
Proof. solve_decision. Defined.

#[global] Instance result_ret : MRet result := @Ok.
#[global] Instance result_bind : MBind result := λ A B f m,
  match m with
  | Ok a => f a
  | Raise e => Raise e
  end.

Definition is_ok {A} (r : result A) : Prop :=
  match r with Ok _ => True | Raise _ => False end.

Definition raises {A} (r : result A) : Prop :=
  match r with Ok _ => False | Raise _ => True end.

(** [d[k]] on a dictionary and [l[i]] on a list. *)
Definition dict_get `{Countable K} {V} (d : gmap K V) (k : K) : result V :=
  match d !! k with
  | Some v => Ok v
  | None => Raise KeyError
  end.

Definition list_get {A} (l : list A) (i : nat) : result A :=
  match l !! i with
  | Some x => Ok x
  | None => Raise IndexError
  end.

(** [for x in xs: body] threading the loop's variables [s]. *)
Fixpoint for_each {A S} (xs : list A) (body : A → S → result S) (s : S)
  : result S :=
  match xs with
  | [] => Ok s
  | x :: xs' => s' ← body x s; for_each xs' body s'
  end.

(** [[f(x) for x in xs]]. *)
Fixpoint comprehension {A B} (f : A → result B) (xs : list A)
  : result (list B) :=
  match xs with
  | [] => Ok []
  | x :: xs' => y ← f x; ys ← comprehension f xs'; Ok (y :: ys)
  end.

(** [range(a, b)] for [a <= b]. *)
Definition range (a b : nat) : list nat := seq a (b - a).

(** ** Methods: an error monad that threads the object [self] *)

Definition St (S A : Type) : Type := S → result A * S.

#[global] Instance St_ret {S} : MRet (St S) := λ A a self, (Ok a, self).
#[global] Instance St_bind {S} : MBind (St S) := λ A B f m self,
  match m self with
  | (Ok a, self') => f a self'
  | (Raise e, self') => (Raise e, self')
  end.

(** [self.f], and a computation that does not involve [self]. *)
Definition attr {S A} (f : S → A) : St S A := λ self, (Ok (f self), self).
Definition lift {S A} (r : result A) : St S A := λ self, (r, self).

(** [try: m except e: h] *)
Definition try_except {S A} (m : St S A) (e : exn) (h : St S A) : St S A :=
  λ self,
    match m self with
    | (Raise e', self') => if decide (e' = e) then h self' else (Raise e', self')
    | ok => ok
    end.

(** The value a method returns and the object it leaves behind. *)
Definition call {S A} (m : St S A) (self : S) : result A := (m self).1.
Definition after {S A} (m : St S A) (self : S) : S := (m self).2.

(** ** Strings: [str.split()], [str.splitlines()], [str(i)] *)

(** Strings are sequences of 8-bit characters, split as byte strings are:
    the blanks of [split] are the six ASCII ones (tab, LF, VT, FF, CR and
    space) and the line ends of [splitlines] are LF, CR and CR LF.  A text
    string also splits at the separators 28 to 31 and at blanks outside
    ASCII, and [splitlines] at VT, FF and the separators 28 to 30; the
    files FEFF writes hold none of these. *)

Definition is_space (c : Ascii.ascii) : bool :=
  match Ascii.N_of_ascii c with
  | 9%N | 10%N | 11%N | 12%N | 13%N | 32%N => true
  | _ => false
  end.

Definition flush (tok : string) (acc : list string) : list string :=
  if decide (tok = "") then acc else acc ++ [tok].

(** [s.split()]: the maximal runs of non-blank characters, in order. *)
Fixpoint split_from (tok : string) (acc : list string) (s : string)
  : list string :=
  match s with
  | EmptyString => flush tok acc
  | String c s' =>
      if is_space c then split_from "" (flush tok acc) s'
      else split_from (tok +:+ String c "") acc s'
  end.

Definition split (s : string) : list string := split_from "" [] s.

(** [s.splitlines()]: lines ended by LF, CR or CR LF, the ends dropped. *)
Fixpoint splitlines_from (cur : string) (started : bool) (s : string)
  : list string :=
  match s with
  | EmptyString => if started then [cur] else []
  | String c s' =>
      match Ascii.N_of_ascii c with
      | 10%N => cur :: splitlines_from "" false s'
      | 13%N =>
          match s' with
          | String c' s'' =>
              if decide (Ascii.N_of_ascii c' = 10%N)
              then cur :: splitlines_from "" false s''
              else cur :: splitlines_from "" false s'
          | EmptyString => [cur]
          end
      | _ => splitlines_from (cur +:+ String c "") true s'
      end
  end.

Definition splitlines (s : string) : list string :=
  splitlines_from "" false s.

(** The characters of a string, as iterating over it yields them. *)
Fixpoint chars (s : string) : list string :=
  match s with
  | EmptyString => []
  | String c s' => String c "" :: chars s'
  end.

(** [sep.join(l)] *)
Fixpoint join (sep : string) (l : list string) : string :=
  match l with
  | [] => ""
  | [x] => x
  | x :: l' => x +:+ sep +:+ join sep l'
  end.

(** [str(i)] for a non-negative integer. *)
Definition str (i : nat) : string := pretty i.

(** The newline character, as a string. *)
Definition LF : string := String (Ascii.ascii_of_nat 10) "".

(** ** numpy arrays of floats, with their shape *)

Section Ndarray.
Context {T : Type}.

Inductive ndarray : Type :=
  | Arr0 (x : T)                             (* shape () *)
  | Arr1 (xs : list T)                       (* shape (n,) *)
  | Arr2 (ncols : nat) (rows : list (list T)). (* shape (n, ncols) *)

(** Every row of a two-dimensional array has [ncols] entries. *)
Definition wf_array (a : ndarray) : Prop :=
  match a with
  | Arr2 ncols rows => Forall (λ r, length r = ncols) rows
  | _ => True
  end.

(** [len(a)] *)
Definition np_len (a : ndarray) : result nat :=
  match a with
  | Arr0 _ => Raise TypeError
  | Arr1 xs => Ok (length xs)
  | Arr2 _ rows => Ok (length rows)
  end.

(** [a[i][c]]: a row, then an entry of it; the entries of a
    one-dimensional array are scalars and cannot be indexed. *)
Definition np_item2 (a : ndarray) (i c : nat) : result T :=
  match a with
  | Arr0 _ => Raise IndexError
  | Arr1 _ => Raise IndexError
  | Arr2 _ rows => row ← list_get rows i; list_get row c
  end.

(** [a[:, c]]: column [c] as a one-dimensional array. *)
Definition np_column (a : ndarray) (c : nat) : result ndarray :=
  match a with
  | Arr0 _ => Raise IndexError
  | Arr1 _ => Raise IndexError
  | Arr2 ncols rows =>
      if decide (c < ncols)
      then col ← comprehension (λ row, list_get row c) rows; Ok (Arr1 col)
      else Raise IndexError
  end.

(** The nested lists [a.tolist()] produces. *)
Inductive nested : Type :=
  | NScalar (x : T)
  | NList (xs : list T)
  | NList2 (rows : list (list T)).

Definition tolist (a : ndarray) : nested :=
  match a with
  | Arr0 x => NScalar x
  | Arr1 xs => NList xs
  | Arr2 _ rows => NList2 rows
  end.

(** [np.array(l)]: the shape is read off the nesting; a list of rows of
    unequal lengths has no rectangular shape. *)
Definition np_array (l : nested) : result ndarray :=
  match l with
  | NScalar x => Ok (Arr0 x)
  | NList xs => Ok (Arr1 xs)
  | NList2 [] => Ok (Arr1 [])
  | NList2 (r :: rows) =>
      if decide (Forall (λ r', length r' = length r) rows)
      then Ok (Arr2 (length r) (r :: rows))
      else Raise ValueError
  end.
End Ndarray.
Arguments ndarray T : clear implicits.
Arguments nested T : clear implicits.

(** ** Enumerations of [pymatgen] used as dictionary keys *)

Inductive Spin : Type := Up | Down.

#[global] Instance Spin_eq_dec : EqDecision Spin.
Proof. solve_decision. Defined.

#[global] Instance Spin_countable : Countable Spin.
Proof.
  refine (inj_countable' (λ x, match x with Up => true | Down => false end)
                         (λ b : bool, if b then Up else Down) _).
  by intros [].
Defined.

Inductive Orbital : Type :=
  | Orbital_s
  | Orbital_py | Orbital_pz | Orbital_px
  | Orbital_dxy | Orbital_dyz | Orbital_dz2 | Orbital_dxz | Orbital_dx2
  | Orbital_f_3 | Orbital_f_2 | Orbital_f_1 | Orbital_f0
  | Orbital_f1 | Orbital_f2 | Orbital_f3.

#[global] Instance Orbital_eq_dec : EqDecision Orbital.
Proof. solve_decision. Defined.

Definition Orbital_value (o : Orbital) : nat :=
  match o with
  | Orbital_s => 0
  | Orbital_py => 1 | Orbital_pz => 2 | Orbital_px => 3
  | Orbital_dxy => 4 | Orbital_dyz => 5 | Orbital_dz2 => 6
  | Orbital_dxz => 7 | Orbital_dx2 => 8
  | Orbital_f_3 => 9 | Orbital_f_2 => 10 | Orbital_f_1 => 11
  | Orbital_f0 => 12
  | Orbital_f1 => 13 | Orbital_f2 => 14 | Orbital_f3 => 15
  end.

Definition Orbital_of_value (n : nat) : Orbital :=
  match n with
  | 0 => Orbital_s
  | 1 => Orbital_py | 2 => Orbital_pz | 3 => Orbital_px
  | 4 => Orbital_dxy | 5 => Orbital_dyz | 6 => Orbital_dz2
  | 7 => Orbital_dxz | 8 => Orbital_dx2
  | 9 => Orbital_f_3 | 10 => Orbital_f_2 | 11 => Orbital_f_1
  | 12 => Orbital_f0
  | 13 => Orbital_f1 | 14 => Orbital_f2 | _ => Orbital_f3
  end.

#[global] Instance Orbital_countable : Countable Orbital.
Proof.
  refine (inj_countable' Orbital_value Orbital_of_value _).
  by intros [].
Defined.

(** ** The collaborators outside the module

    Everything [outputs.py] imports and calls but does not define: the
    float type with its addition and conversions, reading a file, the
    [Header], [Tags] and [Potential] classes of [pymatgen.io.feff] and the
    sites of a structure. *)

Class Env : Type := {
  (* Python floats: [0], [+], [float(s)] and [str(x)] *)
  float : Type;
  fzero : float;
  fadd : float → float → float;
  float_of : string → result float;
  float_str : float → string;
  (* [zopen(name).readlines()] and [np.loadtxt(name)] *)
  readlines : string → result (list string);
  loadtxt : string → result (ndarray float);
  (* the sites of a structure and [structure.species[i].symbol] *)
  Site : Type;
  Site_eq_dec :: EqDecision Site;
  Site_countable :: Countable Site;
  site_symbol : Site → string;
  (* [Header] *)
  Header : Type;
  header_string_from_file : string → result string;
  header_from_string : string → result Header;
  header_from_file : string → result Header;
  header_struct : Header → list Site;
  header_source : Header → string;
  header_formula : Header → result string;
  HeaderDict : Type;
  header_as_dict : Header → HeaderDict;
  header_from_dict : HeaderDict → result Header;
  (* [Tags], a dictionary of the input file's cards *)
  TagValue : Type;
  tags_from_file : string → result (gmap string TagValue);
  (* [Potential]: the POTENTIALS card and the pair of dictionaries
     (atom symbol to index, index to atom symbol) read from it *)
  pot_string_from_file : string → result string;
  pot_dict_from_string : string → result (gmap string Z * gmap Z string);
}.

(** Modelled from the spec: the classes [Dos] and [CompleteDos] of
    [pymatgen.electronic_structure.dos], not part of this module; a density
    of states is its Fermi energy, its energies and its densities per spin,
    and the complete one adds the structure and the per-site, per-orbital
    decomposition. *)
Record Dos `{Env} : Type := mkDos {
  dos_efermi : float;
  dos_energies : list float;
  dos_densities : gmap Spin (list float);
}.

Record CompleteDos `{Env} : Type := mkCompleteDos {
  cdos_structure : list Site;
  cdos_total : Dos;
  cdos_pdos : gmap Site (gmap Orbital (gmap Spin (list float)));
}.
Arguments mkDos {_} _ _ _.
Arguments mkCompleteDos {_} _ _ _.

(** Dictionary literals and [OrderedDict]s keep their keys in insertion
    order: association lists. *)
Fixpoint lit_get {V} (d : list (string * V)) (k : string) : result V :=
  match d with
  | [] => Raise KeyError
  | (k', v) :: d' => if decide (k' = k) then Ok v else lit_get d' k
  end.

Fixpoint od_set {V} (d : list (string * V)) (k : string) (v : V)
  : list (string * V) :=
  match d with
  | [] => [(k, v)]
  | (k', v') :: d' =>
      if decide (k' = k) then (k', v) :: d' else (k', v') :: od_set d' k v
  end.

(** ** [class LDos] *)

Module LDos.
Section WithEnv.
Context `{E : Env}.

(** One entry of the charge-transfer table: [{atom: {'s': .., ...}}]. *)
Definition ct_entry : Type := gmap string (gmap string float).

Record t : Type := mk {
  complete_dos : CompleteDos;
  charge_transfer : list (string * ct_entry);
}.

(** The name of the [i]-th ldos file: one digit is padded with a zero. *)
Definition ldos_name (ldos_filename : string) (i : nat) : string :=
  if decide (String.length (str i) = 1)
  then ldos_filename +:+ "0" +:+ str i +:+ ".dat"
  else ldos_filename +:+ str i +:+ ".dat".

Definition vorb : list (string * Orbital) :=
  [("s", Orbital_s); ("p", Orbital_py); ("d", Orbital_dxy);
   ("f", Orbital_f0)].

Definition forb : list (string * nat) :=
  [("s", 0); ("p", 1); ("d", 2); ("f", 3)].

Definition vorb2 : list (nat * Orbital) :=
  [(0, Orbital_s); (1, Orbital_py); (2, Orbital_dxy); (3, Orbital_f0)].

(** [[ldos[pot_index][j][c] for j in range(dlength)]] *)
Definition density_column (ldos : gmap Z (ndarray float)) (pot_index : Z)
    (c : nat) (dlength : nat) : result (list float) :=
  comprehension (λ j, a ← dict_get ldos pot_index; np_item2 a j c)
                (range 0 dlength).

(** [for j in range(dlength): tdos[j] = tdos[j] + density[j]] *)
Definition accumulate (density : list float) (dlength : nat)
    (tdos : list float) : result (list float) :=
  for_each (range 0 dlength)
    (λ j tdos, x ← list_get tdos j; y ← list_get density j;
               Ok (<[j := fadd x y]> tdos))
    tdos.

(** The partial densities of one site: the body of the loop over
    [vorb.items()], filling the site's [defaultdict]. *)
Definition site_pdos (ldos : gmap Z (ndarray float)) (pot_index : Z)
    (dlength : nat) : result (gmap Orbital (gmap Spin (list float))) :=
  for_each vorb
    (λ '(k, v) site,
       c ← lit_get forb k;
       density ← density_column ldos pot_index (c + 1) dlength;
       let updos := density in
       let downdos : option (list float) := None in
       match downdos with
       | Some down => Ok (<[v := {[Up := updos; Down := down]}]> site)
       | None => Ok (<[v := {[Up := updos]}]> site)
       end)
    ∅.

(** [charge_transfer_from_file]: one entry per potential index
    [0 .. len(dicts[0])], read from the header lines of its ldos file. *)
Definition charges (f : list string) (atom : result string)
  : result ct_entry :=
  l3 ← list_get f 3; t3 ← list_get (split l3) 2; s ← float_of t3;
  l4 ← list_get f 4; t4 ← list_get (split l4) 2; p ← float_of t4;
  l5 ← list_get f 5; t5 ← list_get (split l5) 2; d ← float_of t5;
  l6 ← list_get f 6; t6 ← list_get (split l6) 2; f1 ← float_of t6;
  l1 ← list_get f 1; t1 ← list_get (split l1) 4; tot ← float_of t1;
  a ← atom;
  Ok {[ a := <["s" := s]> (<["p" := p]> (<["d" := d]> (<["f" := f1]>
               {["tot" := tot]}))) ]}.

Definition charge_transfer_from_file (filename1 filename2 : string)
  : result (list (string * ct_entry)) :=
  let cht := [] in
  pot_string ← pot_string_from_file filename1;
  dicts ← pot_dict_from_string pot_string;
  let pot_dict := dicts.2 in
  for_each (range 0 (size dicts.1 + 1))
    (λ i cht,
       if decide (String.length (str i) = 1)
       then
         f ← readlines (filename2 +:+ "0" +:+ str i +:+ ".dat");
         e ← charges f (dict_get pot_dict (Z.of_nat i));
         Ok (od_set cht (str i) e)
       else
         f ← readlines (filename2 +:+ str i +:+ ".dat");
         e ← charges f (dict_get pot_dict (Z.of_nat i));
         Ok (od_set cht (str i) e))
    cht.

Definition from_file (filename1 filename2 : string) : result t :=
  let ldos_filename := filename2 in
  header_str ← header_string_from_file filename1;
  header ← header_from_string header_str;
  let structure := header_struct header in
  let nsites := length structure in
  pot_string ← pot_string_from_file filename1;
  dicts ← pot_dict_from_string pot_string;
  let pot_dict := dicts.1 in
  f ← readlines (ldos_filename +:+ "00.dat");
  l0 ← list_get f 0;
  tok ← list_get (split l0) 4;
  efermi ← float_of tok;
  ldos ← for_each (range 1 (size pot_dict + 1))
           (λ i ldos, a ← loadtxt (ldos_name ldos_filename i);
                      Ok (<[Z.of_nat i := a]> ldos))
           (∅ : gmap Z (ndarray float));
  a1 ← dict_get ldos 1%Z;
  n ← np_len a1;
  dos_energies ← for_each (range 0 n)
           (λ i es, a ← dict_get ldos 1%Z; e ← np_item2 a i 0;
                    Ok (es ++ [e]))
           [];
  a1 ← dict_get ldos 1%Z;
  dlength ← np_len a1;
  all_pdos ← for_each (range 0 nsites)
           (λ i all_pdos,
              site ← list_get structure i;
              pot_index ← dict_get pot_dict (site_symbol site);
              orbs ← site_pdos ldos pot_index dlength;
              Ok (all_pdos ++ [orbs]))
           [];
  let pdos := all_pdos in
  pdoss ← for_each (range 0 (length pdos))
           (λ i pdoss,
              site ← list_get structure i;
              orbs ← list_get pdos i;
              Ok (<[site := foldl (λ d v, <[v := default ∅ (orbs !! v)]> d)
                                  ∅ (vorb2.*2)]> pdoss))
           (∅ : gmap Site (gmap Orbital (gmap Spin (list float))));
  tdos ← for_each (range 0 nsites)
           (λ i tdos,
              site ← list_get structure i;
              pot_index ← dict_get pot_dict (site_symbol site);
              for_each (forb.*2)
                (λ v tdos,
                   density ← density_column ldos pot_index (v + 1) dlength;
                   accumulate density dlength tdos)
                tdos)
           (replicate dlength fzero);
  let tdos : gmap Spin (list float) := {[Up := tdos]} in
  let dos := mkDos efermi dos_energies tdos in
  let complete_dos := mkCompleteDos structure dos pdoss in
  charge_transfer ← charge_transfer_from_file filename1 filename2;
  Ok (mk complete_dos charge_transfer).

(** [for atom, v2 in entry.items(): chts.extend([...])].  The atoms of
    an entry come in the order of the map's keys; an entry [from_file]
    builds holds one atom, where this is the order of insertion. *)
Definition entry_lines (entry : ct_entry) (chts : list string)
  : result (list string) :=
  for_each (map_to_list entry)
    (λ '(atom, v2) chts,
       s ← dict_get v2 "s";
       p ← dict_get v2 "p";
       d ← dict_get v2 "d";
       f ← dict_get v2 "f";
       tot ← dict_get v2 "tot";
       let a := [LF; atom; LF; "s   "; float_str s; LF;
                 "p   "; float_str p; LF;
                 "d   "; float_str d; LF;
                 "f   "; float_str f; LF;
                 "tot "; float_str tot; LF] in
       Ok (chts ++ a))
    chts.

Definition charge_transfer_to_string : St t string :=
  ch ← attr charge_transfer;
  let chts := [LF +:+ "Charge Transfer" +:+ LF +:+ LF +:+ "absorbing atom"] in
  chts ← lift (for_each (range 0 (length ch))
                 (λ i chts, entry ← lit_get ch (str i);
                            entry_lines entry chts)
                 chts);
  mret (join "" chts).
End WithEnv.
End LDos.

(** ** [class Xmu] *)

Module Xmu.
Section WithEnv.
Context `{E : Env}.

Record t : Type := mk {
  header : Header;
  parameters : gmap string TagValue;
  absorbing_atom : string;
  data : ndarray float;
}.

Definition from_file (filename input_filename : string) : result t :=
  data ← loadtxt filename;
  header ← header_from_file input_filename;
  parameters ← tags_from_file input_filename;
  pots ← pot_string_from_file input_filename;
  line ← list_get (splitlines pots) 1;
  absorbing_atom ← list_get (split line) 2;
  Ok (mk header parameters absorbing_atom data).

Definition energies : St t (ndarray float) :=
  d ← attr data; lift (np_column d 0).

Definition relative_energies : St t (ndarray float) :=
  d ← attr data; lift (np_column d 1).

Definition wavenumber : St t (ndarray float) :=
  d ← attr data; lift (np_column d 2).

Definition mu : St t (ndarray float) :=
  d ← attr data; lift (np_column d 3).

Definition mu0 : St t (ndarray float) :=
  d ← attr data; lift (np_column d 4).

Definition chi : St t (ndarray float) :=
  d ← attr data; lift (np_column d 5).

Definition source : St t string :=
  h ← attr header; mret (header_source h).

Definition calc : St t string :=
  p ← attr parameters;
  mret (if decide (is_Some (p !! "XANES")) then "XANES" else "EXAFS").

Definition material_formula : St t string :=
  form ← try_except (h ← attr header; lift (header_formula h))
                    IndexError
                    (mret "No formula provided");
  mret (join "" (chars form)).

Definition edge : St t TagValue :=
  p ← attr parameters; lift (dict_get p "EDGE").

(** The dictionary [as_dict] builds, one field per key. *)
Record xdict : Type := mk_xdict {
  k_module : string;
  k_class : string;
  k_energies : ndarray float;
  k_mu : nested float;
  k_mu0 : nested float;
  k_chi : nested float;
  k_atom : string;
  k_edge : TagValue;
  k_source : string;
  k_calc : string;
  k_formula : string;
  k_HEADER : HeaderDict;
  k_TAGS : gmap string TagValue;
  k_c_atom : string;
  k_xmu : nested float;
}.

Definition as_dict : St t xdict :=
  v_energies ← energies;
  v_mu ← mu;
  v_mu0 ← mu0;
  v_chi ← chi;
  v_atom ← attr absorbing_atom;
  v_edge ← edge;
  v_source ← source;
  v_calc ← calc;
  v_formula ← material_formula;
  h ← attr header;
  v_tags ← attr parameters;
  v_c_atom ← attr absorbing_atom;
  d ← attr data;
  mret {| k_module := "pymatgen.io.feff.outputs";
          k_class := "Xmu";
          k_energies := v_energies;
          k_mu := tolist v_mu;
          k_mu0 := tolist v_mu0;
          k_chi := tolist v_chi;
          k_atom := v_atom;
          k_edge := v_edge;
          k_source := v_source;
          k_calc := v_calc;
          k_formula := v_formula;
          k_HEADER := header_as_dict h;
          k_TAGS := v_tags;
          k_c_atom := v_c_atom;
          k_xmu := tolist d |}.

Definition from_dict (d : xdict) : result t :=
  header ← header_from_dict (k_HEADER d);
  data ← np_array (k_xmu d);
  Ok (mk header (k_TAGS d) (k_c_atom d) data).
End WithEnv.
End Xmu.

(** ** A small FEFF run, to evaluate the parsers on

    Floats are integers here, the file system holds the three ldos files
    of a run with potentials Co (index 0 and 1) and O (index 2), and the
    structure has one Co and two O sites. *)

Module Fixture.
Fixpoint digits (s : string) (acc : Z) : result Z :=
  match s with
  | EmptyString => Ok acc
  | String c s' =>
      let n := Z.of_N (Ascii.N_of_ascii c) in
      if decide (48 ≤ n ≤ 57)%Z then digits s' (10 * acc + (n - 48))%Z
      else Raise ValueError
  end.

Definition int_of (s : string) : result Z :=
  match s with
  | EmptyString => Raise ValueError
  | String c s' =>
      if decide (Ascii.N_of_ascii c = 45%N)
      then (if decide (s' = "") then Raise ValueError
            else z ← digits s' 0%Z; Ok (- z)%Z)
      else digits s 0%Z
  end.

Definition header_lines (fermi ct s p d f : string) : list string :=
  [ "#  Fermi level (eV):   " +:+ fermi;
    "#  Charge transfer :   " +:+ ct;
    "#    Electron counts for each orbital momentum:";
    "#       0    " +:+ s;
    "#       1    " +:+ p;
    "#       2    " +:+ d;
    "#       3    " +:+ f ].

Definition text_files : gmap string (list string) :=
  {[ "ldos00.dat" := header_lines "-9" "3" "1" "2" "0" "0";
     "ldos01.dat" := header_lines "-9" "3" "1" "2" "0" "0";
     "ldos02.dat" := header_lines "-9" "-3" "2" "4" "1" "0" ]}.

Definition tables : gmap string (ndarray Z) :=
  {[ "ldos01.dat" := Arr2 5 [[-20; 1; 2; 3; 4]; [-10; 5; 6; 7; 8]]%Z;
     "ldos02.dat" := Arr2 5 [[-20; 10; 20; 30; 40]; [-10; 50; 60; 70; 80]]%Z;
     "xmu.dat" := Arr2 6 [[7709; -4; -1; 11; 12; 13];
                          [7710; -3; 0; 21; 22; 23]]%Z;
     "xmu_short.dat" := Arr2 3 [[7709; -4; -1]; [7710; -3; 0]]%Z ]}.

Definition open_file {A} (files : gmap string A) (name : string)
  : result A :=
  match files !! name with
  | Some x => Ok x
  | None => Raise IOError
  end.

Definition sites : list (string * nat) := [("Co", 0); ("O", 1); ("O", 2)].

Definition pot_string : string :=
  "POTENTIALS" +:+ LF +:+ "  0  27  Co" +:+ LF +:+ "  1  27  Co" +:+ LF
  +:+ "  2  8  O".

Definition if_input {A} (name : string) (x : A) : result A :=
  if decide (name = "feff.inp") then Ok x else Raise IOError.

Definition env : Env := {|
  float := Z;
  fzero := 0%Z;
  fadd := Z.add;
  float_of := int_of;
  float_str := pretty;
  readlines := open_file text_files;
  loadtxt := open_file tables;
  Site := string * nat;
  site_symbol := fst;
  Header := list (string * nat);
  header_string_from_file := λ name, if_input name "TITLE CoO2";
  header_from_string := λ _, Ok sites;
  header_from_file := λ name, if_input name sites;
  header_struct := λ h, h;
  header_source := λ _, "fixture";
  header_formula := λ _, Ok "Co1 O2";
  HeaderDict := list (string * nat);
  header_as_dict := λ h, h;
  header_from_dict := λ d, Ok d;
  TagValue := string;
  tags_from_file := λ name,
    if_input name
      ({[ "EDGE" := "K"; "XANES" := "3.7" ]} : gmap string string);
  pot_string_from_file := λ name, if_input name pot_string;
  pot_dict_from_string := λ _,
    Ok ({[ "Co" := 1%Z; "O" := 2%Z ]}, {[ 0%Z := "Co"; 1%Z := "Co"; 2%Z := "O" ]});
|}.

Definition tags : gmap string string := {[ "EDGE" := "K"; "XANES" := "3.7" ]}.

(** A spectrum with two rows, and the one numpy reads from a file
    with a single row: a one-dimensional array. *)
Definition xmu : @Xmu.t env :=
  @Xmu.mk env sites tags "Co"
    (Arr2 6 [[7709; -4; -1; 11; 12; 13]; [7710; -3; 0; 21; 22; 23]]%Z).

Definition xmu_one_row : @Xmu.t env :=
  @Xmu.mk env sites tags "Co" (Arr1 [7709; -4; -1; 11; 12; 13]%Z).
End Fixture.

(** Variants of the run of [Fixture]: other text files, tables, sites,
    potentials and formula, the rest of the environment as before. *)
Module Runs.
Definition env_of (texts : gmap string (list string))
    (tabs : gmap string (ndarray Z)) (sts : list (string * nat))
    (dicts : gmap string Z * gmap Z string) (formula : result string)
  : Env := {|
  float := Z;
  fzero := 0%Z;
  fadd := Z.add;
  float_of := Fixture.int_of;
  float_str := pretty;
  readlines := Fixture.open_file texts;
  loadtxt := Fixture.open_file tabs;
  Site := string * nat;
  site_symbol := fst;
  Header := list (string * nat);
  header_string_from_file := λ name, Fixture.if_input name "TITLE CoO2";
  header_from_string := λ _, Ok sts;
  header_from_file := λ name, Fixture.if_input name sts;
  header_struct := λ h, h;
  header_source := λ _, "fixture";
  header_formula := λ _, formula;
  HeaderDict := list (string * nat);
  header_as_dict := λ h, h;
  header_from_dict := λ d, Ok d;
  TagValue := string;
  tags_from_file := λ name, Fixture.if_input name Fixture.tags;
  pot_string_from_file := λ name, Fixture.if_input name Fixture.pot_string;
  pot_dict_from_string := λ _, Ok dicts;
|}.

Definition dicts : gmap string Z * gmap Z string :=
  ({[ "Co" := 1%Z; "O" := 2%Z ]}, {[ 0%Z := "Co"; 1%Z := "Co"; 2%Z := "O" ]}).

(** The run of [Fixture] for a structure without sites. *)
Definition no_sites : Env :=
  env_of Fixture.text_files Fixture.tables [] dicts (Ok "").

(** A run whose POTENTIALS card lists no potential. *)
Definition no_potentials : Env :=
  env_of Fixture.text_files Fixture.tables Fixture.sites (∅, ∅) (Ok "Co1 O2").

(** A run whose [ldos01.dat] holds one row: [loadtxt] returns it as a
    one-dimensional array. *)
Definition one_row : Env :=
  env_of Fixture.text_files
    (<["ldos01.dat" := Arr1 [-20; 1; 2; 3; 4]%Z]> Fixture.tables)
    Fixture.sites dicts (Ok "Co1 O2").



(** An [LDos] object whose charge-transfer table has one entry, under a
    key that is not the decimal string of its index. *)
Definition stray_key : @LDos.t Fixture.env :=
  @LDos.mk Fixture.env
    (@mkCompleteDos Fixture.env []
       (@mkDos Fixture.env 0%Z [] ∅) ∅)
    [("x", ∅)].

(** A spectrum whose table has six columns and no row. *)
Definition empty_xmu : @Xmu.t Fixture.env :=
  @Xmu.mk Fixture.env Fixture.sites Fixture.tags "Co" (Arr2 6 []).
End Runs.

(** ** Notions the statements below are phrased with *)

(** A method is read-only when it hands back the object it was given. *)
Definition readonly {S A} (m : St S A) : Prop :=
  ∀ self, after m self = self.

(** [float(f[line].split()[idx])] *)
Definition token `{Env} (f : list string) (line idx : nat) : result float :=
  l ← list_get f line; t ← list_get (split l) idx; float_of t.

(** One more term of a sum whose terms may be missing. *)
Definition add_opt `{Env} (acc x : option float) : option float :=
  a ← acc; b ← x; Some (fadd a b).

(** The entries of a list of optional numbers, added from the left to [z];
    [None] as soon as one of them is missing. *)
Definition sum_from `{Env} (z : float) (xs : list (option float))
  : option float :=
  foldl add_opt (Some z) xs.

(** The orbitals [from_file] fills in for every site, in the order of
    the columns 1 to 4 of an ldos table. *)
Definition orbitals : list Orbital :=
  [Orbital_s; Orbital_py; Orbital_dxy; Orbital_f0].

(** What an [LDos] object holds: the total density of the up channel,
    the partial density of a site and an orbital, and the partial
    densities at one energy index, site by site and orbital by orbital. *)
Definition total_dos `{Env} (l : LDos.t) : option (list float) :=
  dos_densities (cdos_total (LDos.complete_dos l)) !! Up.

Definition partial_dos `{Env} (l : LDos.t) (st : Site) (o : Orbital)
  : option (list float) :=
  sites ← Some (cdos_pdos (LDos.complete_dos l));
  orbs ← sites !! st; spins ← orbs !! o; spins !! Up.

Definition partials_at `{Env} (l : LDos.t) (j : nat) : list (option float) :=
  st ← cdos_structure (LDos.complete_dos l);
  o ← orbitals;
  [d ← partial_dos l st o; d !! j].

(** Entry [j] of the up channel of orbital [o] in the dictionary of one
    site. *)
Definition orbital_at `{Env} (orbs : gmap Orbital (gmap Spin (list float)))
    (o : Orbital) (j : nat) : option float :=
  spins ← orbs !! o; d ← spins !! Up; d !! j.

(** The partial densities of the site [site], as the loop over the sites
    computes them from the potential index of its species. *)
Definition pdos_of_site `{Env} (pot_dict : gmap string Z)
    (ldos : gmap Z (ndarray float)) (dlength : nat) (site : Site)
  : result (gmap Orbital (gmap Spin (list float))) :=
  pot_index ← dict_get pot_dict (site_symbol site);
  LDos.site_pdos ldos pot_index dlength.

(** Everything [LDos.from_file] reads: the input file with its header
    and potentials, the Fermi level in [ldos00.dat], the table of every
    numbered file, the five numbers of every charge-transfer entry with
    the atom of its potential, and the columns 1 to 4 of the tables of the
    potentials of the sites, over the rows of the first file. *)
Definition ldos_reads_ok `{Env} (filename1 filename2 : string) : Prop :=
  ∃ header_str header pot_string dicts,
    header_string_from_file filename1 = Ok header_str
    ∧ header_from_string header_str = Ok header
    ∧ pot_string_from_file filename1 = Ok pot_string
    ∧ pot_dict_from_string pot_string = Ok dicts
    ∧ (∃ f, readlines (filename2 +:+ "00.dat") = Ok f ∧ is_ok (token f 0 4))
    ∧ (∀ i : nat, (1 ≤ i ≤ size dicts.1)%nat →
         is_ok (loadtxt (LDos.ldos_name filename2 i)))
    ∧ (∀ i : nat, i ≤ size dicts.1 →
         ∃ f, readlines (LDos.ldos_name filename2 i) = Ok f
              ∧ is_ok (token f 3 2) ∧ is_ok (token f 4 2)
              ∧ is_ok (token f 5 2) ∧ is_ok (token f 6 2)
              ∧ is_ok (token f 1 4)
              ∧ is_Some (dicts.2 !! Z.of_nat i))
    ∧ ∃ a1 n,
        loadtxt (LDos.ldos_name filename2 1) = Ok a1
        ∧ np_len a1 = Ok n
        ∧ (∀ i : nat, i < n → is_ok (np_item2 a1 i 0))
        ∧ ∀ st, st ∈ header_struct header →
            ∃ pot, dicts.1 !! site_symbol st = Some pot
                   ∧ ∀ j c : nat, j < n → (1 ≤ c ≤ 4)%nat →
                       ∃ i a, pot = Z.of_nat i
                              ∧ loadtxt (LDos.ldos_name filename2 i) = Ok a
                              ∧ is_ok (np_item2 a j c).

(** Everything [Xmu.from_file] reads: the table, the header and the tags
    of the input file, and the third token of the second line of its
    potentials. *)
Definition xmu_reads_ok `{Env} (filename input_filename : string) : Prop :=
  is_ok (loadtxt filename)
  ∧ is_ok (header_from_file input_filename)
  ∧ is_ok (tags_from_file input_filename)
  ∧ ∃ pots line,
      pot_string_from_file input_filename = Ok pots
      ∧ splitlines pots !! 1 = Some line
      ∧ is_Some (split line !! 2).

(** The reading of C5 that has [Xmu.from_file] reject a table that lacks
    one of the six columns of the layout. *)
Definition xmu_columns_checked `{Env} : Prop :=
  ∀ (filename input_filename : string) a (c : nat),
    loadtxt filename = Ok a → c < 6 → raises (np_column a c) →
    raises (Xmu.from_file filename input_filename).

(** Serialising an [Xmu] and reading the dictionary back. *)
Definition roundtrip `{Env} (x : Xmu.t) : result Xmu.t :=
  d ← call Xmu.as_dict x; Xmu.from_dict d.

(** Two [Xmu] objects with the same data table, absorbing atom and
    parameters. *)
Definition same_content `{Env} (x y : Xmu.t) : Prop :=
  Xmu.data y = Xmu.data x
  ∧ Xmu.absorbing_atom y = Xmu.absorbing_atom x
  ∧ Xmu.parameters y = Xmu.parameters x.

(** The text [charge_transfer_to_string] starts with, and the lines it
    writes for one atom. *)
Definition ct_heading : string :=
  LF +:+ "Charge Transfer" +:+ LF +:+ LF +:+ "absorbing atom".



(** Reading the charge-transfer entry of potential [i]: its file, then
    its five numbers and its atom. *)
Definition read_entry `{Env} (filename2 : string) (pot_dict : gmap Z string)
    (i : nat) : result LDos.ct_entry :=
  f ← readlines (LDos.ldos_name filename2 i);
  LDos.charges f (dict_get pot_dict (Z.of_nat i)).

(** Column [c] of the ldos table of the potential [pot], over [n] rows. *)
Definition table_column `{Env} (filename2 : string) (pot : Z) (c n : nat)
    (density : list float) : Prop :=
  length density = n
  ∧ ∀ j, j < n →
      ∃ (i : nat) a x,
        pot = Z.of_nat i
        ∧ loadtxt (LDos.ldos_name filename2 i) = Ok a
        ∧ np_item2 a j c = Ok x
        ∧ density !! j = Some x.

(** The object [LDos.from_file] assembles, field by field, in terms of
    what the files hold: the structure of the header; the Fermi level, the
    fifth token of the first line of [ldos00.dat]; the energies, column 0
    of the first table; the total density, under [Spin.up] alone, with one
    entry per row, the sum of the partial densities of the object; the
    partial densities, for exactly the sites of the structure, each with
    the orbitals s, py, dxy and f0 under [Spin.up] alone, holding the
    columns 1 to 4 of the table of the site's potential; and the
    charge-transfer table, with the keys ["0"] to [str n] in order and in
    entry [i] the atom of index [i] with the five numbers of the [i]-th
    ldos file. *)
Definition ldos_assembled `{Env} (filename1 filename2 : string) (l : LDos.t)
  : Prop :=
  ∃ header_str header pot_string dicts f efermi a1 n tdos,
    header_string_from_file filename1 = Ok header_str
    ∧ header_from_string header_str = Ok header
    ∧ pot_string_from_file filename1 = Ok pot_string
    ∧ pot_dict_from_string pot_string = Ok dicts
    ∧ readlines (filename2 +:+ "00.dat") = Ok f
    ∧ token f 0 4 = Ok efermi
    ∧ loadtxt (LDos.ldos_name filename2 1) = Ok a1
    ∧ np_len a1 = Ok n
    ∧ cdos_structure (LDos.complete_dos l) = header_struct header
    ∧ dos_efermi (cdos_total (LDos.complete_dos l)) = efermi
    ∧ comprehension (λ i, np_item2 a1 i 0) (range 0 n)
      = Ok (dos_energies (cdos_total (LDos.complete_dos l)))
    ∧ dos_densities (cdos_total (LDos.complete_dos l)) = {[Up := tdos]}
    ∧ length tdos = n
    ∧ (∀ j, j < n → tdos !! j = sum_from fzero (partials_at l j))
    ∧ (∀ st, is_Some (cdos_pdos (LDos.complete_dos l) !! st)
             ↔ st ∈ header_struct header)
    ∧ (∀ st, st ∈ header_struct header →
         ∃ pot ds dp dd df,
           dicts.1 !! site_symbol st = Some pot
           ∧ cdos_pdos (LDos.complete_dos l) !! st
             = Some (<[Orbital_f0 := {[Up := df]}]>
                       (<[Orbital_dxy := {[Up := dd]}]>
                          (<[Orbital_py := {[Up := dp]}]>
                             (<[Orbital_s := {[Up := ds]}]> ∅))))
           ∧ table_column filename2 pot 1 n ds
           ∧ table_column filename2 pot 2 n dp
           ∧ table_column filename2 pot 3 n dd
           ∧ table_column filename2 pot 4 n df)
    ∧ length (LDos.charge_transfer l) = size dicts.1 + 1
    ∧ (LDos.charge_transfer l).*1 = str <$> seq 0 (size dicts.1 + 1)
    ∧ ∀ i, i ≤ size dicts.1 →
        ∃ fi atom s p d f1 tot,
          readlines (LDos.ldos_name filename2 i) = Ok fi
          ∧ dicts.2 !! Z.of_nat i = Some atom
          ∧ token fi 3 2 = Ok s ∧ token fi 4 2 = Ok p ∧ token fi 5 2 = Ok d
          ∧ token fi 6 2 = Ok f1 ∧ token fi 1 4 = Ok tot
          ∧ LDos.charge_transfer l !! i
            = Some (str i,
                    {[ atom := <["s" := s]> (<["p" := p]> (<["d" := d]>
                                 (<["f" := f1]> {["tot" := tot]}))) ]}).

(** The object [Xmu.from_file] assembles: the table as [loadtxt] returned
    it, the header and the tags of the input file, and as absorbing atom
    the third token of the second line of the potentials. *)
Definition xmu_assembled `{Env} (filename input_filename : string)
    (x : Xmu.t) : Prop :=
  loadtxt filename = Ok (Xmu.data x)
  ∧ header_from_file input_filename = Ok (Xmu.header x)
  ∧ tags_from_file input_filename = Ok (Xmu.parameters x)
  ∧ ∃ pots line,
      pot_string_from_file input_filename = Ok pots
      ∧ splitlines pots !! 1 = Some line
      ∧ split line !! 2 = Some (Xmu.absorbing_atom x).


(** * General facts about the monads and the loops *)

Lemma bind_Ok {A B} (m : result A) (f : A → result B) (b : B) :
  m ≫= f = Ok b ↔ ∃ a, m = Ok a ∧ f a = Ok b.
Proof.
  destruct m as [a|e]; simpl; split.
  - intros Hf. by exists a.
  - intros (a' & Ha & Hf). congruence.
  - discriminate.
  - intros (a' & Ha & _). discriminate.
Qed.

Lemma bind_Raise {A B} (m : result A) (f : A → result B) :
  raises m → raises (m ≫= f).
Proof. by destruct m. Qed.

Lemma raises_not_ok {A} (r : result A) : raises r ↔ ¬ is_ok r.
Proof. destruct r; simpl; naive_solver. Qed.

Lemma is_ok_Ok {A} (r : result A) : is_ok r ↔ ∃ a, r = Ok a.
Proof.
  destruct r as [a|e]; simpl; split; try done.
  - by exists a.
  - intros [a Ha]. discriminate.
Qed.

Ltac ok_inv H :=
  repeat match type of H with
         | _ ≫= _ = Ok _ =>
             let x := fresh "v" in
             let Hx := fresh "Hv" in
             apply bind_Ok in H as (x & Hx & H)
         end.

Lemma list_get_Ok {A} (l : list A) (i : nat) (x : A) :
  list_get l i = Ok x ↔ l !! i = Some x.
Proof. unfold list_get. destruct (l !! i); naive_solver. Qed.

Lemma dict_get_Ok `{Countable K} {V} (d : gmap K V) (k : K) (v : V) :
  dict_get d k = Ok v ↔ d !! k = Some v.
Proof. unfold dict_get. destruct (d !! k); naive_solver. Qed.

Lemma comprehension_Ok {A B} (f : A → result B) (xs : list A) (ys : list B) :
  comprehension f xs = Ok ys ↔ Forall2 (λ x y, f x = Ok y) xs ys.
Proof.
  revert ys. induction xs as [|x xs IH]; intros ys; simpl.
  - split; [intros [= <-]; constructor | by inversion 1].
  - split.
    + intros Hc. ok_inv Hc. injection Hc as <-.
      constructor; [done | by apply IH].
    + inversion 1 as [|? y ? ys' Hy Hys]; subst.
      rewrite Hy. simpl. apply IH in Hys. by rewrite Hys.
Qed.

Lemma range_lookup (n k : nat) : k < n → range 0 n !! k = Some k.
Proof. intros Hk. unfold range. apply lookup_seq. lia. Qed.

Lemma range_length (n : nat) : length (range 0 n) = n.
Proof. unfold range. rewrite length_seq. lia. Qed.

Lemma for_each_cons {A S} (x : A) (xs : list A) (body : A → S → result S)
    (s : S) :
  for_each (x :: xs) body s = (s' ← body x s; for_each xs body s').
Proof. reflexivity. Qed.

(** A loop over the indices of a list that starts by fetching the element
    is the loop over the elements. *)
Lemma for_each_indices {A S} (l : list A) (body : A → S → result S) (s : S) :
  for_each (range 0 (length l)) (λ i s, x ← list_get l i; body x s) s
  = for_each l body s.
Proof.
  unfold range. rewrite Nat.sub_0_r.
  assert (Hgen : ∀ (pre post : list A) s0,
    for_each (seq (length pre) (length post))
             (λ i s, x ← list_get (pre ++ post) i; body x s) s0
    = for_each post body s0).
  { intros pre post. revert pre.
    induction post as [|x post IH]; intros pre s0; [done|].
    simpl.
    assert (list_get (pre ++ x :: post) (length pre) = Ok x) as ->
      by (apply list_get_Ok, list_lookup_middle; done).
    simpl. destruct (body x s0) as [s1|e]; [simpl | done].
    specialize (IH (pre ++ [x]) s1).
    rewrite length_app, Nat.add_1_r, <- app_assoc in IH. apply IH. }
  apply (Hgen [] l s).
Qed.

(** The same for a loop that fetches from two lists of one length. *)
Lemma for_each_indices2 {A B S} (l1 : list A) (l2 : list B)
    (body : A → B → S → result S) (s : S) :
  length l1 = length l2 →
  for_each (range 0 (length l2))
    (λ i s, x ← list_get l1 i; y ← list_get l2 i; body x y s) s
  = for_each (zip l1 l2) (λ p, body p.1 p.2) s.
Proof.
  unfold range. rewrite Nat.sub_0_r.
  assert (Hgen : ∀ (post1 : list A) (post2 : list B) pre1 pre2 s0,
    length pre1 = length pre2 → length post1 = length post2 →
    for_each (seq (length pre2) (length post2))
             (λ i s, x ← list_get (pre1 ++ post1) i;
                     y ← list_get (pre2 ++ post2) i; body x y s) s0
    = for_each (zip post1 post2) (λ p, body p.1 p.2) s0).
  { induction post1 as [|x post1 IH]; intros [|y post2] pre1 pre2 s0 Hpre Hpost;
      try done.
    simpl.
    assert (list_get (pre1 ++ x :: post1) (length pre2) = Ok x) as ->
      by (apply list_get_Ok, list_lookup_middle; done).
    assert (list_get (pre2 ++ y :: post2) (length pre2) = Ok y) as ->
      by (apply list_get_Ok, list_lookup_middle; done).
    simpl. destruct (body x y s0) as [s1|e]; [simpl | done].
    specialize (IH post2 (pre1 ++ [x]) (pre2 ++ [y]) s1).
    rewrite !length_app, <- !app_assoc in IH. simpl in IH.
    rewrite !Nat.add_1_r in IH.
    apply IH; simpl in *; lia. }
  intros Hlen. apply (Hgen l1 l2 [] [] s); done.
Qed.

(** A loop that appends one computed element per round builds the list
    of these elements. *)
Lemma for_each_append {A B} (g : A → result B) (xs : list A)
    (body : A → list B → result (list B)) (acc out : list B) :
  (∀ x s, body x s = (y ← g x; Ok (s ++ [y]))) →
  for_each xs body acc = Ok out →
  ∃ ys, comprehension g xs = Ok ys ∧ out = acc ++ ys.
Proof.
  intros Hbody. revert acc. induction xs as [|x xs IH]; intros acc; simpl.
  - intros [= <-]. exists []. by rewrite app_nil_r.
  - rewrite Hbody. intros Hl. ok_inv Hl. ok_inv Hv. injection Hv as <-.
    destruct (IH _ Hl) as (ys & Hys & ->).
    exists (v0 :: ys). rewrite Hv0. simpl. rewrite Hys. simpl.
    by rewrite <- app_assoc.
Qed.

(** A property kept by every round holds when the loop ends. *)
Lemma for_each_invariant {A S} (P : S → Prop) (xs : list A)
    (body : A → S → result S) (s s' : S) :
  (∀ x t t', x ∈ xs → P t → body x t = Ok t' → P t') →
  P s → for_each xs body s = Ok s' → P s'.
Proof.
  revert s. induction xs as [|x xs IH]; intros s Hstep Hs; simpl.
  - by intros [= <-].
  - intros Hl. ok_inv Hl. eapply IH; [| |exact Hl].
    + intros y t t' Hy. apply Hstep. by right.
    + eapply Hstep; [by left | exact Hs | exact Hv].
Qed.

(** ** Read-only methods *)

Lemma readonly_ret {S A} (a : A) : readonly (mret a : St S A).
Proof. done. Qed.

Lemma readonly_attr {S A} (f : S → A) : readonly (attr f).
Proof. done. Qed.

Lemma readonly_lift {S A} (r : result A) : readonly (lift r : St S A).
Proof. done. Qed.

Lemma readonly_bind {S A B} (m : St S A) (f : A → St S B) :
  readonly m → (∀ a, readonly (f a)) → readonly (m ≫= f).
Proof.
  intros Hm Hf self. unfold after, mbind, St_bind.
  specialize (Hm self). unfold after in Hm.
  destruct (m self) as [[a|e] self']; simpl in *; subst; [apply Hf | done].
Qed.

Lemma readonly_try_except {S A} (m h : St S A) (e : exn) :
  readonly m → readonly h → readonly (try_except m e h).
Proof.
  intros Hm Hh self. unfold after, try_except.
  specialize (Hm self). unfold after in Hm.
  destruct (m self) as [[a|e'] self']; simpl in *; subst; [done|].
  case_decide; [apply Hh | done].
Qed.

Ltac readonly :=
  repeat first
    [ apply readonly_ret | apply readonly_attr | apply readonly_lift
    | apply readonly_try_except
    | apply readonly_bind; [| intros ?] ].

(** The value of a read-only method run after another one. *)
Lemma call_bind {S A B} (m : St S A) (f : A → St S B) (self : S) :
  readonly m →
  call (m ≫= f) self = (call m self ≫= λ a, call (f a) self).
Proof.
  intros Hm. unfold call, mbind at 1, St_bind.
  specialize (Hm self). unfold after in Hm.
  destruct (m self) as [[a|e] self']; simpl in *; by subst.
Qed.

(** * [Xmu]: the columns of the data table *)

Section XmuFacts.
Context `{E : Env}.
Import Xmu.

Lemma np_column_Ok (ncols : nat) (rows : list (list float)) (c : nat) :
  Forall (λ r, length r = ncols) rows → c < ncols →
  ∃ col, np_column (Arr2 ncols rows) c = Ok (Arr1 col)
         ∧ Forall2 (λ row y, row !! c = Some y) rows col.
Proof.
  intros Hwf Hc. unfold np_column. rewrite decide_True by done.
  assert (∃ col, Forall2 (λ row y, list_get row c = Ok y) rows col)
    as [col Hcol].
  { induction Hwf as [|row rows Hrow _ [col IH]]; [by exists []|].
    destruct (lookup_lt_is_Some_2 row c) as [y Hy]; [lia|].
    exists (y :: col). constructor; [by apply list_get_Ok | done]. }
  exists col. split.
  - apply comprehension_Ok in Hcol. by rewrite Hcol.
  - eapply Forall2_impl; [exact Hcol|]. intros row y. apply list_get_Ok.
Qed.

Lemma np_column_inv (a : ndarray float) (c : nat) (col : ndarray float) :
  np_column a c = Ok col →
  ∃ ncols rows, a = Arr2 ncols rows ∧ c < ncols.
Proof.
  destruct a as [x|xs|ncols rows]; simpl; try discriminate.
  case_decide; [|discriminate]. intros _. by exists ncols, rows.
Qed.

Lemma join_chars (s : string) : join "" (chars s) = s.
Proof.
  induction s as [|c s IH]; [done|].
  simpl. destruct s as [|c' s']; [done|].
  simpl in *. by rewrite IH.
Qed.

Lemma np_array_tolist (a : ndarray float) :
  wf_array a → np_len a ≠ Ok 0 → np_array (tolist a) = Ok a.
Proof.
  destruct a as [x|xs|ncols rows]; simpl; [done..|].
  intros Hwf Hlen. destruct rows as [|r rows]; [done|].
  apply Forall_cons in Hwf as [<- Hwf].
  by rewrite decide_True.
Qed.
End XmuFacts.

Section XmuTheorems.
Context `{E : Env}.
Import Xmu.

(** C2: on an Xmu object whose data table is N x 6, the accessors
    [energies], [relative_energies], [wavenumber], [mu], [mu0] and [chi]
    return the columns 0 to 5 of the table, in this order: each result
    has one entry per row, and row [i] of the table is the list of the
    [i]-th entries of the six results. *)
Theorem Xmu_accessors_are_columns (x : Xmu.t) (rows : list (list float)) :
  data x = Arr2 6 rows →
  Forall (λ r, length r = 6) rows →
  ∃ es res ks ms m0s cs,
    call energies x = Ok (Arr1 es)
    ∧ call relative_energies x = Ok (Arr1 res)
    ∧ call wavenumber x = Ok (Arr1 ks)
    ∧ call mu x = Ok (Arr1 ms)
    ∧ call mu0 x = Ok (Arr1 m0s)
    ∧ call chi x = Ok (Arr1 cs)
    ∧ length es = length rows
    ∧ length res = length rows
    ∧ length ks = length rows
    ∧ length ms = length rows
    ∧ length m0s = length rows
    ∧ length cs = length rows
    ∧ ∀ i row, rows !! i = Some row →
        ∃ e re k m m0 c,
          row = [e; re; k; m; m0; c]
          ∧ es !! i = Some e ∧ res !! i = Some re ∧ ks !! i = Some k
          ∧ ms !! i = Some m ∧ m0s !! i = Some m0 ∧ cs !! i = Some c.
Proof.
  intros Hdata Hwf.
  destruct (np_column_Ok 6 rows 0 Hwf) as (es & Hes & Hes2); [lia|].
  destruct (np_column_Ok 6 rows 1 Hwf) as (res & Hres & Hres2); [lia|].
  destruct (np_column_Ok 6 rows 2 Hwf) as (ks & Hks & Hks2); [lia|].
  destruct (np_column_Ok 6 rows 3 Hwf) as (ms & Hms & Hms2); [lia|].
  destruct (np_column_Ok 6 rows 4 Hwf) as (m0s & Hm0s & Hm0s2); [lia|].
  destruct (np_column_Ok 6 rows 5 Hwf) as (cs & Hcs & Hcs2); [lia|].
  exists es, res, ks, ms, m0s, cs.
  unfold call, energies, relative_energies, wavenumber, mu, mu0, chi.
  unfold mbind, St_bind, attr, lift. simpl. rewrite Hdata.
  split; [done|]. split; [done|]. split; [done|].
  split; [done|]. split; [done|]. split; [done|].
  split; [symmetry; eapply Forall2_length, Hes2|].
  split; [symmetry; eapply Forall2_length, Hres2|].
  split; [symmetry; eapply Forall2_length, Hks2|].
  split; [symmetry; eapply Forall2_length, Hms2|].
  split; [symmetry; eapply Forall2_length, Hm0s2|].
  split; [symmetry; eapply Forall2_length, Hcs2|].
  intros i row Hrow.
  pose proof (Forall_lookup_1 _ _ _ _ Hwf Hrow) as Hlen.
    destruct row as [|e [|re [|k [|m [|m0 [|c [|? ?]]]]]]]; try done.
    exists e, re, k, m, m0, c. split; [done|].
    pose proof (Forall2_lookup_l _ _ _ _ _ Hes2 Hrow) as (? & -> & [= ->]).
    pose proof (Forall2_lookup_l _ _ _ _ _ Hres2 Hrow) as (? & -> & [= ->]).
    pose proof (Forall2_lookup_l _ _ _ _ _ Hks2 Hrow) as (? & -> & [= ->]).
    pose proof (Forall2_lookup_l _ _ _ _ _ Hms2 Hrow) as (? & -> & [= ->]).
    pose proof (Forall2_lookup_l _ _ _ _ _ Hm0s2 Hrow) as (? & -> & [= ->]).
    pose proof (Forall2_lookup_l _ _ _ _ _ Hcs2 Hrow) as (? & -> & [= ->]).
    done.
Qed.

(** C10: [material_formula] returns the header's formula joined into
    one string, returns ['No formula provided'] when reading the formula
    raises [IndexError], and so never raises [IndexError] itself; any
    other exception of the header passes through. *)
Theorem material_formula_no_IndexError (x : Xmu.t) :
  call material_formula x
  = match header_formula (header x) with
    | Ok form => Ok (join "" (chars form))
    | Raise IndexError => Ok "No formula provided"
    | Raise e => Raise e
    end
  ∧ call material_formula x ≠ Raise IndexError.
Proof.
  assert (Heq : call material_formula x
                = match header_formula (header x) with
                  | Ok form => Ok (join "" (chars form))
                  | Raise IndexError => Ok "No formula provided"
                  | Raise e => Raise e
                  end).
  { unfold call, material_formula, try_except, mbind, St_bind, attr, lift.
    simpl. destruct (header_formula (header x)) as [form|[]]; done. }
  split; [exact Heq|]. rewrite Heq.
  destruct (header_formula (header x)) as [form|[]]; done.
Qed.

(** C4, as amended: when [as_dict] returns a dictionary for an Xmu
    object whose data table has at least one row, and [Header.from_dict]
    accepts the serialised header, [from_dict] rebuilds an Xmu object
    with the same data table, absorbing atom and parameters. *)
Theorem from_dict_as_dict (x : Xmu.t) (d : xdict) (h : Header) :
  call as_dict x = Ok d →
  wf_array (data x) →
  np_len (data x) ≠ Ok 0 →
  header_from_dict (header_as_dict (header x)) = Ok h →
  ∃ y, roundtrip x = Ok y ∧ header y = h ∧ same_content x y.
Proof.
  intros Hd Hwf Hlen Hh. unfold roundtrip. rewrite Hd. simpl.
  assert (k_HEADER d = header_as_dict (header x)
          ∧ k_xmu d = tolist (data x)
          ∧ k_TAGS d = parameters x
          ∧ k_c_atom d = absorbing_atom x) as (HH & HX & HT & HA).
  { revert Hd.
    unfold call, as_dict, energies, mu, mu0, chi, edge, source, calc,
      material_formula, try_except, mbind, St_bind, attr, lift, mret,
      St_ret.
    simpl.
    repeat (case_match; simplify_eq/=; try discriminate).
    all: by intros [= <-]. }
  unfold from_dict. rewrite HH, Hh, HX. simpl.
  rewrite (np_array_tolist _ Hwf Hlen). simpl.
  eexists. split; [done|]. rewrite HT, HA. by repeat split.
Qed.
End XmuTheorems.

Lemma Xmu_accessors_are_columns_witness :
  Xmu.data Fixture.xmu
  = Arr2 6 [[7709; -4; -1; 11; 12; 13]; [7710; -3; 0; 21; 22; 23]]%Z
  ∧ call Xmu.energies Fixture.xmu = Ok (Arr1 [7709; 7710]%Z)
  ∧ call Xmu.chi Fixture.xmu = Ok (Arr1 [13; 23]%Z)
  ∧ ∃ es res ks ms m0s cs,
      call Xmu.energies Fixture.xmu = Ok (Arr1 es)
      ∧ call Xmu.relative_energies Fixture.xmu = Ok (Arr1 res)
      ∧ call Xmu.wavenumber Fixture.xmu = Ok (Arr1 ks)
      ∧ call Xmu.mu Fixture.xmu = Ok (Arr1 ms)
      ∧ call Xmu.mu0 Fixture.xmu = Ok (Arr1 m0s)
      ∧ call Xmu.chi Fixture.xmu = Ok (Arr1 cs)
      ∧ length es = 2
      ∧ length res = 2
      ∧ length ks = 2
      ∧ length ms = 2
      ∧ length m0s = 2
      ∧ length cs = 2
      ∧ ∀ i row,
          [[7709; -4; -1; 11; 12; 13]; [7710; -3; 0; 21; 22; 23]]%Z !! i
          = Some row →
          ∃ e re k m m0 c,
            row = [e; re; k; m; m0; c]
            ∧ es !! i = Some e ∧ res !! i = Some re ∧ ks !! i = Some k
            ∧ ms !! i = Some m ∧ m0s !! i = Some m0 ∧ cs !! i = Some c.
Proof.
  split; [reflexivity|]. split; [reflexivity|]. split; [reflexivity|].
  apply (Xmu_accessors_are_columns (E := Fixture.env) Fixture.xmu
           [[7709; -4; -1; 11; 12; 13]; [7710; -3; 0; 21; 22; 23]]%Z).
  - reflexivity.
  - repeat constructor.
Defined.

(** C4 as stated fails: on the spectrum numpy reads from a file with a
    single row, a one-dimensional array, [as_dict] raises [IndexError]
    when it takes the first column, so nothing is reconstructed. *)
Lemma roundtrip_not_total :
  ¬ (∀ x : @Xmu.t Fixture.env,
       ∃ y, roundtrip x = Ok y ∧ same_content x y).
Proof.
  intros Hall. destruct (Hall Fixture.xmu_one_row) as (y & Hy & _).
  assert (Hr : roundtrip Fixture.xmu_one_row = Raise IndexError)
    by reflexivity.
  rewrite Hr in Hy. discriminate.
Qed.

Lemma from_dict_as_dict_witness :
  ∃ d,
    call Xmu.as_dict Fixture.xmu = Ok d
    ∧ wf_array (Xmu.data Fixture.xmu)
    ∧ np_len (Xmu.data Fixture.xmu) ≠ Ok 0
    ∧ header_from_dict (header_as_dict (Xmu.header Fixture.xmu))
      = Ok Fixture.sites
    ∧ ∃ y, roundtrip Fixture.xmu = Ok y
           ∧ Xmu.header y = Fixture.sites
           ∧ same_content Fixture.xmu y.
Proof.
  eexists. split; [reflexivity|].
  assert (Hwf : wf_array (Xmu.data Fixture.xmu)) by repeat constructor.
  assert (Hlen : np_len (Xmu.data Fixture.xmu) ≠ Ok 0) by discriminate.
  assert (Hh : header_from_dict (header_as_dict (Xmu.header Fixture.xmu))
               = Ok Fixture.sites) by reflexivity.
  split; [exact Hwf|]. split; [exact Hlen|]. split; [exact Hh|].
  exact (from_dict_as_dict (E := Fixture.env) Fixture.xmu _ Fixture.sites
           eq_refl Hwf Hlen Hh).
Defined.

(** C8: no accessor changes the object it is called on: after each of
    the Xmu properties, after [as_dict] and after
    [charge_transfer_to_string] the object, and so every field of it, is
    the one the call started from. *)
Theorem accessors_leave_object_unchanged `{E : Env}
    (x : Xmu.t) (l : LDos.t) :
  after Xmu.energies x = x
  ∧ after Xmu.relative_energies x = x
  ∧ after Xmu.wavenumber x = x
  ∧ after Xmu.mu x = x
  ∧ after Xmu.mu0 x = x
  ∧ after Xmu.chi x = x
  ∧ after Xmu.source x = x
  ∧ after Xmu.calc x = x
  ∧ after Xmu.material_formula x = x
  ∧ after Xmu.edge x = x
  ∧ after Xmu.as_dict x = x
  ∧ after LDos.charge_transfer_to_string l = l.
Proof.
  assert (Hcol : ∀ c, readonly (d ← attr Xmu.data; lift (np_column d c)
                                : St Xmu.t (ndarray float)))
    by (intros c; readonly).
  assert (Hsource : readonly Xmu.source) by (unfold Xmu.source; readonly).
  assert (Hcalc : readonly Xmu.calc) by (unfold Xmu.calc; readonly).
  assert (Hform : readonly Xmu.material_formula)
    by (unfold Xmu.material_formula; readonly).
  assert (Hedge : readonly Xmu.edge) by (unfold Xmu.edge; readonly).
  assert (Hdict : readonly Xmu.as_dict).
  { unfold Xmu.as_dict.
    repeat first [ apply Hcol | apply Hedge | apply Hsource | apply Hcalc
                 | apply Hform | apply readonly_ret | apply readonly_attr
                 | apply readonly_bind; [| intros ?] ]. }
  assert (Hstr : readonly LDos.charge_transfer_to_string)
    by (unfold LDos.charge_transfer_to_string; readonly).
  split; [apply (Hcol 0)|]. split; [apply (Hcol 1)|].
  split; [apply (Hcol 2)|]. split; [apply (Hcol 3)|].
  split; [apply (Hcol 4)|]. split; [apply (Hcol 5)|].
  split; [apply Hsource|]. split; [apply Hcalc|].
  split; [apply Hform|]. split; [apply Hedge|].
  split; [apply Hdict | apply Hstr].
Qed.

(** * [LDos]: the loops of [from_file] *)

Section LDosLoops.
Context `{E : Env}.
Import LDos.

(** Loading the numbered files binds exactly the indices of the range,
    each to the table of its file. *)
Lemma load_ldos_spec (base : string) (a k : nat)
    (m0 m : gmap Z (ndarray float)) :
  for_each (seq a k)
    (λ i ldos, arr ← loadtxt (ldos_name base i);
               Ok (<[Z.of_nat i := arr]> ldos)) m0 = Ok m →
  (∀ i, a ≤ i < a + k →
     ∃ arr, loadtxt (ldos_name base i) = Ok arr
            ∧ m !! Z.of_nat i = Some arr)
  ∧ (∀ key, (∀ i, a ≤ i < a + k → key ≠ Z.of_nat i) →
       m !! key = m0 !! key).
Proof.
  revert a m0. induction k as [|k IH]; intros a m0 Hl; simpl in Hl.
  - injection Hl as <-. split; [lia | done].
  - ok_inv Hl. ok_inv Hv. injection Hv as <-.
    destruct (IH _ _ Hl) as [IH1 IH2]. split.
    + intros i Hi. destruct (decide (i = a)) as [->|Hne].
      * exists v0. split; [done|].
        rewrite IH2; [apply lookup_insert_eq|]. intros i' Hi'. lia.
      * apply IH1. lia.
    + intros key Hkey. rewrite IH2.
      * apply lookup_insert_ne. intros Heq. apply (Hkey a); [lia | done].
      * intros i Hi. apply Hkey. lia.
Qed.

(** One pass of [accumulate] adds [density[j]] to [tdos[j]] at the
    indices of the range and leaves the rest. *)
Lemma accumulate_from (d : list float) (a k : nat) (t t' : list float) :
  for_each (seq a k)
    (λ j tdos, x ← list_get tdos j; y ← list_get d j;
               Ok (<[j := fadd x y]> tdos)) t = Ok t' →
  length t' = length t
  ∧ ∀ j, t' !! j = if decide (a ≤ j < a + k)
                   then add_opt (t !! j) (d !! j) else t !! j.
Proof.
  revert a t. induction k as [|k IH]; intros a t Hl; simpl in Hl.
  - injection Hl as <-. split; [done|]. intros j.
    rewrite decide_False by lia. done.
  - ok_inv Hl. ok_inv Hv. ok_inv Hv. injection Hv as <-.
    apply list_get_Ok in Hv0, Hv1.
    destruct (IH _ _ Hl) as [IHlen IHj]. split.
    + by rewrite IHlen, length_insert.
    + intros j. rewrite IHj.
      destruct (decide (j = a)) as [->|Hne].
      * rewrite decide_False, decide_True by lia.
        rewrite list_lookup_insert_eq by (by eapply lookup_lt_Some).
        by rewrite Hv0, Hv1.
      * rewrite list_lookup_insert_ne by done.
        destruct (decide (a ≤ j < a + S k)).
        -- by rewrite decide_True by lia.
        -- by rewrite decide_False by lia.
Qed.

Lemma accumulate_spec (d : list float) (n : nat) (t t' : list float) :
  accumulate d n t = Ok t' →
  length t' = length t
  ∧ ∀ j, j < n → t' !! j = add_opt (t !! j) (d !! j).
Proof.
  unfold accumulate, range. rewrite Nat.sub_0_r. intros Hl.
  destruct (accumulate_from _ _ _ _ _ Hl) as [Hlen Hj].
  split; [done|]. intros j Hjn. rewrite Hj. by rewrite decide_True by lia.
Qed.

(** A column read for [dlength] rows has [dlength] entries, the entries
    of the table. *)
Lemma density_column_spec (ldos : gmap Z (ndarray float)) (pot_index : Z)
    (c dlength : nat) (density : list float) :
  density_column ldos pot_index c dlength = Ok density →
  length density = dlength
  ∧ ∀ j, j < dlength →
      ∃ a x, ldos !! pot_index = Some a ∧ np_item2 a j c = Ok x
             ∧ density !! j = Some x.
Proof.
  unfold density_column, range. rewrite Nat.sub_0_r.
  intros Hc. apply comprehension_Ok in Hc. split.
  - apply Forall2_length in Hc. by rewrite length_seq in Hc.
  - intros j Hj.
    destruct (Forall2_lookup_l _ _ _ j j Hc) as (x & Hx & Hjx).
    { by apply lookup_seq. }
    ok_inv Hjx. apply dict_get_Ok in Hv. by exists v, x.
Qed.

(** The dictionary of a site: each of the four orbitals mapped to the
    single-channel dictionary of its column. *)
Lemma site_pdos_spec (ldos : gmap Z (ndarray float)) (pot_index : Z)
    (dlength : nat) (orbs : gmap Orbital (gmap Spin (list float))) :
  site_pdos ldos pot_index dlength = Ok orbs →
  ∃ ds dp dd df,
    density_column ldos pot_index 1 dlength = Ok ds
    ∧ density_column ldos pot_index 2 dlength = Ok dp
    ∧ density_column ldos pot_index 3 dlength = Ok dd
    ∧ density_column ldos pot_index 4 dlength = Ok df
    ∧ orbs = <[Orbital_f0 := {[Up := df]}]>
               (<[Orbital_dxy := {[Up := dd]}]>
                  (<[Orbital_py := {[Up := dp]}]>
                     (<[Orbital_s := {[Up := ds]}]> ∅))).
Proof.
  unfold site_pdos. simpl. intros Hl.
  apply bind_Ok in Hl as (o1 & H1 & Hl).
  apply bind_Ok in H1 as (ds & Hds & H1). injection H1 as <-.
  apply bind_Ok in Hl as (o2 & H2 & Hl).
  apply bind_Ok in H2 as (dp & Hdp & H2). injection H2 as <-.
  apply bind_Ok in Hl as (o3 & H3 & Hl).
  apply bind_Ok in H3 as (dd & Hdd & H3). injection H3 as <-.
  apply bind_Ok in Hl as (o4 & H4 & Hl).
  apply bind_Ok in H4 as (df & Hdf & H4). injection H4 as <-.
  injection Hl as <-. by exists ds, dp, dd, df.
Qed.

(** The rounds of one site add its four columns, in the order s, p,
    d, f, entry by entry. *)
Lemma site_tdos_spec (ldos : gmap Z (ndarray float)) (pot_index : Z)
    (dlength : nat) (orbs : gmap Orbital (gmap Spin (list float)))
    (t t' : list float) :
  site_pdos ldos pot_index dlength = Ok orbs →
  for_each (forb.*2)
    (λ v tdos, density ← density_column ldos pot_index (v + 1) dlength;
               accumulate density dlength tdos) t = Ok t' →
  length t' = length t
  ∧ ∀ j, j < dlength →
      t' !! j = foldl add_opt (t !! j)
                  ((λ o, orbital_at orbs o j) <$> orbitals).
Proof.
  intros Horbs Hl.
  destruct (site_pdos_spec _ _ _ _ Horbs)
    as (ds & dp & dd & df & Hs & Hp & Hd & Hf & ->).
  simpl in Hl.
  apply bind_Ok in Hl as (t1 & H1 & Hl). rewrite Hs in H1. simpl in H1.
  apply bind_Ok in Hl as (t2 & H2 & Hl). rewrite Hp in H2. simpl in H2.
  apply bind_Ok in Hl as (t3 & H3 & Hl). rewrite Hd in H3. simpl in H3.
  apply bind_Ok in Hl as (t4 & H4 & Hl). rewrite Hf in H4. simpl in H4.
  injection Hl as <-.
  apply accumulate_spec in H1 as [L1 J1], H2 as [L2 J2],
    H3 as [L3 J3], H4 as [L4 J4].
  split; [congruence|]. intros j Hj.
  rewrite J4, J3, J2, J1 by done. unfold orbital_at. simpl.
  by simplify_map_eq.
Qed.

Section Sites.
Variables (pot_dict : gmap string Z) (ldos : gmap Z (ndarray float))
          (dlength : nat).

(** The loop that builds [all_pdos] computes the dictionary of every
    site, in the order of the sites. *)
Lemma all_pdos_spec (structure : list Site)
    (all_pdos : list (gmap Orbital (gmap Spin (list float)))) :
  for_each (range 0 (length structure))
    (λ i all_pdos,
       site ← list_get structure i;
       pot_index ← dict_get pot_dict (site_symbol site);
       orbs ← site_pdos ldos pot_index dlength;
       Ok (all_pdos ++ [orbs])) [] = Ok all_pdos →
  Forall2 (λ site orbs, pdos_of_site pot_dict ldos dlength site = Ok orbs)
          structure all_pdos.
Proof.
  rewrite (for_each_indices structure
             (λ site all_pdos,
                pot_index ← dict_get pot_dict (site_symbol site);
                orbs ← site_pdos ldos pot_index dlength;
                Ok (all_pdos ++ [orbs]))).
  intros Hl.
  apply (for_each_append (pdos_of_site pot_dict ldos dlength)) in Hl
    as (ys & Hys & ->).
  - by apply comprehension_Ok in Hys.
  - intros site acc. unfold pdos_of_site.
    destruct (dict_get pot_dict (site_symbol site)); [simpl | done].
    by destruct (site_pdos ldos a dlength).
Qed.

(** The loop that builds the total adds, for every site in order, the
    four columns of the site. *)
Lemma tdos_spec (structure : list Site)
    (all_pdos : list (gmap Orbital (gmap Spin (list float))))
    (t t' : list float) :
  Forall2 (λ site orbs, pdos_of_site pot_dict ldos dlength site = Ok orbs)
          structure all_pdos →
  for_each (range 0 (length structure))
    (λ i tdos,
       site ← list_get structure i;
       pot_index ← dict_get pot_dict (site_symbol site);
       for_each (forb.*2)
         (λ v tdos,
            density ← density_column ldos pot_index (v + 1) dlength;
            accumulate density dlength tdos)
         tdos) t = Ok t' →
  length t' = length t
  ∧ ∀ j, j < dlength →
      t' !! j = foldl add_opt (t !! j)
                  (orbs ← all_pdos; o ← orbitals;
                   [orbital_at orbs o j]).
Proof.
  rewrite (for_each_indices structure
             (λ site tdos,
                pot_index ← dict_get pot_dict (site_symbol site);
                for_each (forb.*2)
                  (λ v tdos,
                     density ← density_column ldos pot_index (v + 1)
                                 dlength;
                     accumulate density dlength tdos)
                  tdos)).
  intros Hall. revert t.
  induction Hall as [|site orbs structure all_pdos Hsite _ IH]; intros t Hl.
  - injection Hl as <-. done.
  - rewrite for_each_cons in Hl.
    apply bind_Ok in Hl as (t1 & Hstep & Hl).
    apply bind_Ok in Hstep as (pot_index & Hpot & Hstep).
    unfold pdos_of_site in Hsite. rewrite Hpot in Hsite. simpl in Hsite.
    destruct (site_tdos_spec _ _ _ _ _ _ Hsite Hstep) as [L1 J1].
    destruct (IH _ Hl) as [L2 J2].
    split; [congruence|]. intros j Hj.
    rewrite J2, J1 by done. simpl. reflexivity.
Qed.

(** Copying the four orbitals of a site's dictionary gives it back. *)
Lemma vorb2_copy (site : Site)
    (orbs : gmap Orbital (gmap Spin (list float))) :
  pdos_of_site pot_dict ldos dlength site = Ok orbs →
  foldl (λ d v, <[v := default ∅ (orbs !! v)]> d) ∅ (vorb2.*2) = orbs.
Proof.
  unfold pdos_of_site. intros Hs. ok_inv Hs.
  destruct (site_pdos_spec _ _ _ _ Hs) as (ds & dp & dd & df & _ & _ & _ & _ & ->).
  simpl. apply map_eq. intros o.
  destruct o; by simplify_map_eq.
Qed.

(** The dictionary keyed by site holds, for exactly the sites of the
    structure, the dictionary computed for the site. *)
Lemma pdoss_spec (structure : list Site)
    (all_pdos : list (gmap Orbital (gmap Spin (list float))))
    (pdoss : gmap Site (gmap Orbital (gmap Spin (list float)))) :
  Forall2 (λ site orbs, pdos_of_site pot_dict ldos dlength site = Ok orbs)
          structure all_pdos →
  for_each (range 0 (length all_pdos))
    (λ i pdoss,
       site ← list_get structure i;
       orbs ← list_get all_pdos i;
       Ok (<[site := foldl (λ d v, <[v := default ∅ (orbs !! v)]> d)
                           ∅ (vorb2.*2)]> pdoss)) ∅ = Ok pdoss →
  ∀ st orbs,
    pdoss !! st = Some orbs
    ↔ st ∈ structure ∧ pdos_of_site pot_dict ldos dlength st = Ok orbs.
Proof.
  intros Hall.
  rewrite (for_each_indices2 structure all_pdos
             (λ site orbs pdoss,
                Ok (<[site := foldl (λ d v, <[v := default ∅ (orbs !! v)]> d)
                                    ∅ (vorb2.*2)]> pdoss)))
    by (by eapply Forall2_length).
  assert (Hgen :
    ∀ m0 m : gmap Site (gmap Orbital (gmap Spin (list float))),
    for_each (zip structure all_pdos)
      (λ p pdoss,
         Ok (<[p.1 := foldl (λ d v, <[v := default ∅ (p.2 !! v)]> d)
                            ∅ (vorb2.*2)]> pdoss)) m0 = Ok m →
    ∀ st orbs,
      m !! st = Some orbs
      ↔ ((st ∈ structure ∧ pdos_of_site pot_dict ldos dlength st = Ok orbs)
         ∨ ((st ∉ structure) ∧ m0 !! st = Some orbs))).
  { induction Hall as [|site o structure all_pdos Hsite _ IH];
      intros m0 m Hl st orbs.
    - injection Hl as <-. split.
      + intros Hm. right. split; [apply not_elem_of_nil | done].
      + intros [[Hin _]|[_ Hm]]; [by apply elem_of_nil in Hin | done].
    - change (zip (site :: structure) (o :: all_pdos))
        with ((site, o) :: zip structure all_pdos) in Hl.
      rewrite for_each_cons in Hl.
      apply bind_Ok in Hl as (m1 & Hm1 & Hl). injection Hm1 as <-.
      pose proof (vorb2_copy _ _ Hsite) as Hcopy.
      cbn in Hl, Hcopy. rewrite Hcopy in Hl.
      rewrite (IH _ _ Hl), elem_of_cons.
      destruct (decide (st = site)) as [->|Hne].
      + rewrite lookup_insert_eq. split.
        * intros [[Hin Hst]|[Hnin Heq]]; left; split; try by left.
          -- done.
          -- injection Heq as <-. done.
        * intros [[_ Hst]|[Hnin _]].
          -- destruct (decide (site ∈ structure)) as [Hin|Hnin];
               [by left|].
             right. split; [done|]. congruence.
          -- exfalso. apply Hnin. by left.
      + rewrite lookup_insert_ne by done. split.
        * intros [[Hin Hst]|[Hnin Hm]].
          -- left. split; [by right | done].
          -- right. split; [|done]. intros [?|?]; done.
        * intros [[[?|Hin] Hst]|[Hnin Hm]]; [done| |].
          -- left. by split.
          -- right. split; [|done]. intros Hin. apply Hnin. by right. }
  intros Hl st orbs. rewrite (Hgen _ _ Hl), lookup_empty. split.
  - intros [?|[_ ?]]; done.
  - intros ?. by left.
Qed.
End Sites.
End LDosLoops.

(** * [LDos.from_file]: what a successful parse went through *)

Section LDosParse.
Context `{E : Env}.
Import LDos.

Lemma token_Ok (f : list string) (line idx : nat) (l t : string)
    (x : float) :
  list_get f line = Ok l → list_get (split l) idx = Ok t →
  float_of t = Ok x → token f line idx = Ok x.
Proof. intros Hl Ht Hx. unfold token. by rewrite Hl; simpl; rewrite Ht. Qed.

Lemma energies_spec (ldos : gmap Z (ndarray float)) (a1 : ndarray float)
    (n : nat) (es : list float) :
  ldos !! 1%Z = Some a1 →
  for_each (range 0 n)
    (λ i es, a ← dict_get ldos 1%Z; e ← np_item2 a i 0; Ok (es ++ [e])) []
  = Ok es →
  comprehension (λ i, np_item2 a1 i 0) (range 0 n) = Ok es.
Proof.
  intros H1 Hl.
  apply (for_each_append (λ i, np_item2 a1 i 0)) in Hl as (ys & Hys & ->);
    [done|].
  intros i acc. unfold dict_get. rewrite H1. simpl.
  by destruct (np_item2 a1 i 0).
Qed.

Lemma from_file_inv (filename1 filename2 : string) (l : LDos.t) :
  from_file filename1 filename2 = Ok l →
  ∃ header_str header pot_string dicts f efermi ldos a1 n dos_energies
    all_pdos pdoss tdos ct,
    header_string_from_file filename1 = Ok header_str
    ∧ header_from_string header_str = Ok header
    ∧ pot_string_from_file filename1 = Ok pot_string
    ∧ pot_dict_from_string pot_string = Ok dicts
    ∧ readlines (filename2 +:+ "00.dat") = Ok f
    ∧ token f 0 4 = Ok efermi
    ∧ for_each (range 1 (size dicts.1 + 1))
        (λ i ldos, arr ← loadtxt (ldos_name filename2 i);
                   Ok (<[Z.of_nat i := arr]> ldos)) ∅ = Ok ldos
    ∧ ldos !! 1%Z = Some a1
    ∧ np_len a1 = Ok n
    ∧ comprehension (λ i, np_item2 a1 i 0) (range 0 n) = Ok dos_energies
    ∧ Forall2 (λ site orbs, pdos_of_site dicts.1 ldos n site = Ok orbs)
              (header_struct header) all_pdos
    ∧ (∀ st orbs, pdoss !! st = Some orbs
         ↔ st ∈ header_struct header
           ∧ pdos_of_site dicts.1 ldos n st = Ok orbs)
    ∧ length tdos = n
    ∧ (∀ j, j < n →
         tdos !! j = foldl add_opt (Some fzero)
                       (orbs ← all_pdos; o ← orbitals;
                        [orbital_at orbs o j]))
    ∧ charge_transfer_from_file filename1 filename2 = Ok ct
    ∧ l = mk (mkCompleteDos (header_struct header)
                (mkDos efermi dos_energies {[Up := tdos]}) pdoss) ct.
Proof.
  unfold from_file. intros H.
  apply bind_Ok in H as (header_str & Hhs & H).
  apply bind_Ok in H as (header & Hh & H).
  apply bind_Ok in H as (pot_string & Hps & H).
  apply bind_Ok in H as (dicts & Hd & H).
  apply bind_Ok in H as (f & Hf & H).
  apply bind_Ok in H as (l0 & Hl0 & H).
  apply bind_Ok in H as (tok & Htok & H).
  apply bind_Ok in H as (efermi & Hef & H).
  apply bind_Ok in H as (ldos & Hldos & H).
  apply bind_Ok in H as (a1 & Ha1 & H).
  apply bind_Ok in H as (n & Hn & H).
  apply bind_Ok in H as (dos_energies & Hen & H).
  apply bind_Ok in H as (a1' & Ha1' & H).
  apply bind_Ok in H as (dlength & Hdl & H).
  apply bind_Ok in H as (all_pdos & Hall & H).
  apply bind_Ok in H as (pdoss & Hpdoss & H).
  apply bind_Ok in H as (tdos & Htdos & H).
  apply bind_Ok in H as (ct & Hct & H).
  injection H as <-.
  apply dict_get_Ok in Ha1, Ha1'.
  rewrite Ha1 in Ha1'. injection Ha1' as <-.
  rewrite Hn in Hdl. injection Hdl as <-.
  apply all_pdos_spec in Hall.
  pose proof (pdoss_spec _ _ _ _ _ _ Hall Hpdoss) as Hp.
  destruct (tdos_spec _ _ _ _ _ _ _ Hall Htdos) as [Hlen Hsum].
  rewrite length_replicate in Hlen.
  exists header_str, header, pot_string, dicts, f, efermi, ldos, a1, n,
    dos_energies, all_pdos, pdoss, tdos, ct.
  split; [done|]. split; [done|]. split; [done|]. split; [done|].
  split; [done|]. split; [by eapply token_Ok|].
  split; [done|]. split; [done|]. split; [done|].
  split; [by eapply energies_spec|].
  split; [done|]. split; [exact Hp|]. split; [done|].
  split; [|by split].
  intros j Hj. rewrite (Hsum j Hj). by rewrite lookup_replicate_2.
Qed.
End LDosParse.

(** * [LDos.from_file]: the object it returns *)

Section LDosTheorems.
Context `{E : Env}.
Import LDos.

(** The tables of the dictionary [ldos] are the numbered files. *)
Lemma ldos_lookup (base : string) (n : nat) (ldos : gmap Z (ndarray float))
    (k : Z) (a : ndarray float) :
  for_each (range 1 (n + 1))
    (λ i ldos, arr ← loadtxt (ldos_name base i);
               Ok (<[Z.of_nat i := arr]> ldos)) ∅ = Ok ldos →
  ldos !! k = Some a →
  ∃ i, k = Z.of_nat i ∧ 1 ≤ i ≤ n ∧ loadtxt (ldos_name base i) = Ok a.
Proof.
  unfold range. intros Hl Hk.
  destruct (load_ldos_spec _ _ _ _ _ Hl) as [Hin Hout].
  destruct (decide (1 ≤ k ≤ Z.of_nat n)%Z) as [Hr|Hr].
  - destruct (Hin (Z.to_nat k)) as (arr & Harr & Hm); [lia|].
    rewrite Z2Nat.id in Hm by lia.
    exists (Z.to_nat k). split; [lia|]. split; [lia|]. congruence.
  - rewrite Hout, lookup_empty in Hk; [done|]. intros i Hi. lia.
Qed.

Lemma first_ldos_name (base : string) : ldos_name base 1 = base +:+ "01.dat".
Proof. reflexivity. Qed.

(** The partial densities stored in the object, site by site, are those
    of the list [all_pdos]. *)
Lemma partials_of_all_pdos
    (pdoss : gmap Site (gmap Orbital (gmap Spin (list float))))
    (R : Site → gmap Orbital (gmap Spin (list float)) → Prop)
    (structure : list Site)
    (all_pdos : list (gmap Orbital (gmap Spin (list float)))) (j : nat) :
  Forall2 R structure all_pdos →
  (∀ st orbs, st ∈ structure → R st orbs → pdoss !! st = Some orbs) →
  (st ← structure; o ← orbitals;
   [d ← (orbs ← pdoss !! st; spins ← orbs !! o; spins !! Up); d !! j])
  = (orbs ← all_pdos; o ← orbitals; [orbital_at orbs o j]).
Proof.
  induction 1 as [|st orbs structure all_pdos Hst _ IH]; intros Hp; [done|].
  assert (Hst' : pdoss !! st = Some orbs) by (apply Hp; [by left | done]).
  assert (Htl : ∀ st' orbs', st' ∈ structure → R st' orbs' →
                             pdoss !! st' = Some orbs')
    by (intros st' orbs' Hin; apply Hp; by right).
  specialize (IH Htl).
  cbn [mbind list_bind]. rewrite IH, Hst'. unfold orbital_at. simpl.
  do 4 f_equal; by destruct (orbs !! _).
Qed.

(** A partial density stored in the object is the column of the table
    of the site's potential: orbital number [v] is column [v + 1]. *)
Lemma stored_partial_is_table_entry (base : string) (npots : nat)
    (pot_dict : gmap string Z) (ldos : gmap Z (ndarray float)) (n : nat)
    (pdoss : gmap Site (gmap Orbital (gmap Spin (list float))))
    (structure : list Site)
    (all_pdos : list (gmap Orbital (gmap Spin (list float))))
    (st : Site) (v : nat) (o : Orbital) (j : nat) :
  for_each (range 1 (npots + 1))
    (λ i ldos, arr ← loadtxt (ldos_name base i);
               Ok (<[Z.of_nat i := arr]> ldos)) ∅ = Ok ldos →
  Forall2 (λ site orbs, pdos_of_site pot_dict ldos n site = Ok orbs)
          structure all_pdos →
  (∀ st orbs, pdoss !! st = Some orbs
     ↔ st ∈ structure ∧ pdos_of_site pot_dict ldos n st = Ok orbs) →
  st ∈ structure → orbitals !! v = Some o → j < n →
  ∃ pot i a x,
    pot_dict !! site_symbol st = Some pot
    ∧ pot = Z.of_nat i
    ∧ loadtxt (ldos_name base i) = Ok a
    ∧ np_item2 a j (v + 1) = Ok x
    ∧ (d ← (orbs ← pdoss !! st; spins ← orbs !! o; spins !! Up); d !! j)
      = Some x.
Proof.
  intros Hldos Hall Hp Hst Hv Hj.
  pose proof Hst as Hin. apply list_elem_of_lookup in Hin as [k Hk].
  destruct (Forall2_lookup_l _ _ _ _ _ Hall Hk) as (orbs & _ & Horbs).
  assert (Hpst : pdoss !! st = Some orbs) by (by apply Hp).
  unfold pdos_of_site in Horbs.
  apply bind_Ok in Horbs as (pot & Hpot & Hsite).
  apply dict_get_Ok in Hpot.
  destruct (site_pdos_spec _ _ _ _ Hsite)
    as (ds & dp & dd & df & Hds & Hdp & Hdd & Hdf & Horbs).
  assert (∃ density,
            density_column ldos pot (v + 1) n = Ok density
            ∧ (spins ← orbs !! o; spins !! Up) = Some density)
    as (density & Hdens & Hlook).
  { destruct v as [|[|[|[|v]]]]; simpl in Hv; [| | | |done];
      injection Hv as <-; eexists; (split; [eassumption|]);
      subst orbs; by simplify_map_eq. }
  apply density_column_spec in Hdens as [_ Hdens].
  destruct (Hdens j Hj) as (a & x & Ha & Hx & Hjx).
  destruct (ldos_lookup _ _ _ _ _ Hldos Ha) as (i & Hi & _ & Hload).
  exists pot, i, a, x.
  split; [done|]. split; [done|]. split; [done|]. split; [done|].
  rewrite Hpst. simpl. rewrite Hlook. simpl. done.
Qed.

(** C1: in the object [from_file] returns, the total density stored
    under [Spin.up] is, at every energy index [j], the sum over the sites
    of the structure and over the orbitals s, p, d, f of the partial
    densities stored for the site and the orbital, added in this order
    starting from zero; and the partial density of a site and the [v]-th
    orbital at [j] is the entry of row [j] and column [v + 1] of the ldos
    table of the site's potential. *)
Theorem total_dos_is_sum_of_partials (filename1 filename2 : string)
    (l : LDos.t) :
  from_file filename1 filename2 = Ok l →
  ∃ tdos pot_string dicts,
    pot_string_from_file filename1 = Ok pot_string
    ∧ pot_dict_from_string pot_string = Ok dicts
    ∧ total_dos l = Some tdos
    ∧ length tdos = length (dos_energies (cdos_total (complete_dos l)))
    ∧ (∀ j, j < length tdos →
         is_Some (tdos !! j)
         ∧ tdos !! j = sum_from fzero (partials_at l j))
    ∧ ∀ st v o j,
        st ∈ cdos_structure (complete_dos l) →
        orbitals !! v = Some o →
        j < length tdos →
        ∃ pot i a x,
          dicts.1 !! site_symbol st = Some pot
          ∧ pot = Z.of_nat i
          ∧ loadtxt (ldos_name filename2 i) = Ok a
          ∧ np_item2 a j (v + 1) = Ok x
          ∧ (d ← partial_dos l st o; d !! j) = Some x.
Proof.
  intros Hl. apply from_file_inv in Hl
    as (header_str & header & pot_string & dicts & f & efermi & ldos & a1
        & n & dos_energies & all_pdos & pdoss & tdos & ct & _ & _ & Hps & Hd
        & _ & _ & Hldos & _ & _ & Hen & Hall & Hp & Hlen & Hsum & _ & ->).
  exists tdos, pot_string, dicts.
  unfold total_dos, partials_at, partial_dos. simpl.
  split; [done|]. split; [done|].
  split; [by rewrite lookup_singleton_eq|]. split; [|split].
  - apply comprehension_Ok, Forall2_length in Hen.
    rewrite range_length in Hen. lia.
  - intros j Hj. split; [by apply lookup_lt_is_Some_2|].
    rewrite Hsum by lia. unfold sum_from. f_equal. symmetry.
    apply (partials_of_all_pdos _ _ _ _ _ Hall).
    intros st orbs Hin Hst. by apply Hp.
  - intros st v o j Hst Hv Hj.
    apply (stored_partial_is_table_entry _ _ _ _ _ _ _ _ _ _ _ _
             Hldos Hall Hp Hst Hv).
    lia.
Qed.

(** C3: every density mapping of the object [from_file] returns, the
    total one and the one of every site and orbital, has the single key
    [Spin.up]; no [Spin.down] entry exists. *)
Theorem densities_have_only_spin_up (filename1 filename2 : string)
    (l : LDos.t) :
  from_file filename1 filename2 = Ok l →
  dom (dos_densities (cdos_total (complete_dos l))) = {[Up]}
  ∧ ∀ st orbs o spins,
      cdos_pdos (complete_dos l) !! st = Some orbs →
      orbs !! o = Some spins →
      dom spins = {[Up]} ∧ spins !! Down = None.
Proof.
  intros Hl. apply from_file_inv in Hl
    as (header_str & header & pot_string & dicts & f & efermi & ldos & a1
        & n & dos_energies & all_pdos & pdoss & tdos & ct & _ & _ & _ & _
        & _ & _ & _ & _ & _ & _ & _ & Hp & _ & _ & _ & ->).
  simpl. split; [by rewrite dom_singleton_L|].
  intros st orbs o spins Hst Ho. apply Hp in Hst as [_ Hst].
  unfold pdos_of_site in Hst. ok_inv Hst.
  destruct (site_pdos_spec _ _ _ _ Hst)
    as (ds & dp & dd & df & _ & _ & _ & _ & ->).
  destruct o; simplify_map_eq; by rewrite dom_singleton_L.
Qed.

(** C6: the Fermi energy of the DOS is the fifth token of the first line
    of [ldos00.dat], converted by [float], and the energies of the DOS
    are, entry for entry, the first column of [ldos01.dat]. *)
Theorem fermi_energy_and_energies (filename1 filename2 : string)
    (l : LDos.t) :
  from_file filename1 filename2 = Ok l →
  (∃ f line tok,
     readlines (filename2 +:+ "00.dat") = Ok f
     ∧ f !! 0 = Some line
     ∧ split line !! 4 = Some tok
     ∧ float_of tok = Ok (dos_efermi (cdos_total (complete_dos l))))
  ∧ (∃ a1 n,
       loadtxt (filename2 +:+ "01.dat") = Ok a1
       ∧ np_len a1 = Ok n
       ∧ length (dos_energies (cdos_total (complete_dos l))) = n
       ∧ ∀ i, i < n →
           ∃ e, np_item2 a1 i 0 = Ok e
                ∧ dos_energies (cdos_total (complete_dos l)) !! i = Some e).
Proof.
  intros Hl. apply from_file_inv in Hl
    as (header_str & header & pot_string & dicts & f & efermi & ldos & a1
        & n & dos_energies & all_pdos & pdoss & tdos & ct & _ & _ & _ & _
        & Hf & Htok & Hldos & H1 & Hn & Hen & _ & _ & _ & _ & _ & ->).
  simpl. split.
  - unfold token in Htok. ok_inv Htok.
    apply list_get_Ok in Hv, Hv0. by exists f, v, v0.
  - destruct (ldos_lookup _ _ _ _ _ Hldos H1) as (i & Hi & _ & Hload).
    assert (i = 1) as -> by lia. rewrite first_ldos_name in Hload.
    exists a1, n. apply comprehension_Ok in Hen.
    split; [done|]. split; [done|]. split.
    + apply Forall2_length in Hen. unfold range in Hen.
      rewrite length_seq in Hen. lia.
    + intros k Hk.
      destruct (Forall2_lookup_l _ _ _ k k Hen) as (e & He & Hke).
      { by apply range_lookup. }
      by exists e.
Qed.

(** C9: in the object [from_file] returns, the energies, the total
    density and every partial density have one length, the number of rows
    [len] gives for the table of [ldos01.dat]. *)
Theorem all_lists_have_the_row_count (filename1 filename2 : string)
    (l : LDos.t) :
  from_file filename1 filename2 = Ok l →
  ∃ a1 n,
    loadtxt (filename2 +:+ "01.dat") = Ok a1
    ∧ np_len a1 = Ok n
    ∧ ((∃ ncols rows, a1 = Arr2 ncols rows ∧ n = length rows)
       ∨ (a1 = Arr1 [] ∧ n = 0))
    ∧ length (dos_energies (cdos_total (complete_dos l))) = n
    ∧ (∀ spin d,
         dos_densities (cdos_total (complete_dos l)) !! spin = Some d →
         length d = n)
    ∧ (∀ st orbs o spins spin d,
         cdos_pdos (complete_dos l) !! st = Some orbs →
         orbs !! o = Some spins →
         spins !! spin = Some d →
         length d = n).
Proof.
  intros Hl. apply from_file_inv in Hl
    as (header_str & header & pot_string & dicts & f & efermi & ldos & a1
        & n & dos_energies & all_pdos & pdoss & tdos & ct & _ & _ & _ & _
        & _ & _ & Hldos & H1 & Hn & Hen & _ & Hp & Hlen & _ & _ & ->).
  simpl.
  destruct (ldos_lookup _ _ _ _ _ Hldos H1) as (i & Hi & _ & Hload).
  assert (i = 1) as -> by lia. rewrite first_ldos_name in Hload.
  exists a1, n. apply comprehension_Ok in Hen.
  split; [done|]. split; [done|]. split; [|split; [|split]].
  - destruct a1 as [x|xs|ncols rows]; simpl in Hn; [done| |].
    + injection Hn as <-. right. destruct xs as [|x xs]; [done|].
      apply Forall2_cons_inv_l in Hen as (? & ? & ? & _). done.
    + injection Hn as <-. left. by exists ncols, rows.
  - apply Forall2_length in Hen. unfold range in Hen.
    rewrite length_seq in Hen. lia.
  - intros spin d Hd. destruct spin; by simplify_map_eq.
  - intros st orbs o spins spin d Hst Ho Hs.
    apply Hp in Hst as [_ Hst].
    unfold pdos_of_site in Hst. ok_inv Hst.
    destruct (site_pdos_spec _ _ _ _ Hst)
      as (ds & dp & dd & df & Hds & Hdp & Hdd & Hdf & ->).
    apply density_column_spec in Hds as [Hds _], Hdp as [Hdp _],
      Hdd as [Hdd _], Hdf as [Hdf _].
    revert Hs.
    destruct o; simplify_map_eq; intros Hs;
      apply lookup_singleton_Some in Hs as [_ <-]; done.
Qed.
End LDosTheorems.

(** * [LDos.charge_transfer_from_file] *)

Section ChargeTransfer.
Context `{E : Env}.
Import LDos.

Lemma od_set_fresh {V} (d : list (string * V)) (k : string) (v : V) :
  k ∉ d.*1 → od_set d k v = d ++ [(k, v)].
Proof.
  induction d as [|[k' v'] d IH]; simpl; [done|].
  rewrite not_elem_of_cons. intros [Hne Hk].
  rewrite decide_False by done. by rewrite IH.
Qed.

Lemma str_fresh (a i : nat) : a ≤ i → str i ∉ str <$> seq 0 a.
Proof.
  intros Hai Hin. apply list_elem_of_fmap in Hin as (i' & Heq & Hin).
  apply (inj pretty) in Heq as <-. apply elem_of_seq in Hin. lia.
Qed.

(** The lines a table entry is read from. *)
Lemma charges_spec (f : list string) (atom : result string) (e : ct_entry) :
  charges f atom = Ok e →
  ∃ a s p d f1 tot,
    atom = Ok a
    ∧ token f 3 2 = Ok s ∧ token f 4 2 = Ok p ∧ token f 5 2 = Ok d
    ∧ token f 6 2 = Ok f1 ∧ token f 1 4 = Ok tot
    ∧ e = {[ a := <["s" := s]> (<["p" := p]> (<["d" := d]> (<["f" := f1]>
                     {["tot" := tot]}))) ]}.
Proof.
  unfold charges. intros H.
  apply bind_Ok in H as (l3 & Hl3 & H). apply bind_Ok in H as (t3 & Ht3 & H).
  apply bind_Ok in H as (s & Hs & H).
  apply bind_Ok in H as (l4 & Hl4 & H). apply bind_Ok in H as (t4 & Ht4 & H).
  apply bind_Ok in H as (p & Hp & H).
  apply bind_Ok in H as (l5 & Hl5 & H). apply bind_Ok in H as (t5 & Ht5 & H).
  apply bind_Ok in H as (d & Hd & H).
  apply bind_Ok in H as (l6 & Hl6 & H). apply bind_Ok in H as (t6 & Ht6 & H).
  apply bind_Ok in H as (f1 & Hf1 & H).
  apply bind_Ok in H as (l1 & Hl1 & H). apply bind_Ok in H as (t1 & Ht1 & H).
  apply bind_Ok in H as (tot & Htot & H).
  apply bind_Ok in H as (a & Ha & H). injection H as <-.
  exists a, s, p, d, f1, tot.
  repeat split; try done; by eapply token_Ok.
Qed.

(** The rounds [a .. a + k - 1] of the loop append one entry each, under
    the decimal string of the index. *)
Lemma charge_transfer_loop (filename2 : string) (pot_dict : gmap Z string)
    (a k : nat) (cht0 cht : list (string * ct_entry)) :
  cht0.*1 = str <$> seq 0 a →
  for_each (seq a k)
    (λ i cht,
       if decide (String.length (str i) = 1)
       then
         f ← readlines (filename2 +:+ "0" +:+ str i +:+ ".dat");
         e ← charges f (dict_get pot_dict (Z.of_nat i));
         Ok (od_set cht (str i) e)
       else
         f ← readlines (filename2 +:+ str i +:+ ".dat");
         e ← charges f (dict_get pot_dict (Z.of_nat i));
         Ok (od_set cht (str i) e)) cht0 = Ok cht →
  ∃ es, cht = cht0 ++ es
        ∧ Forall2 (λ i e, e.1 = str i
                          ∧ ∃ f, readlines (ldos_name filename2 i) = Ok f
                                 ∧ charges f (dict_get pot_dict (Z.of_nat i))
                                   = Ok e.2)
                  (seq a k) es.
Proof.
  revert a cht0. induction k as [|k IH]; intros a cht0 Hkeys Hl; simpl in Hl.
  - injection Hl as <-. exists []. by rewrite app_nil_r.
  - apply bind_Ok in Hl as (cht1 & Hstep & Hl).
    assert (∃ f e, readlines (ldos_name filename2 a) = Ok f
                   ∧ charges f (dict_get pot_dict (Z.of_nat a)) = Ok e
                   ∧ cht1 = cht0 ++ [(str a, e)]) as (f & e & Hf & He & ->).
    { unfold ldos_name.
      destruct (decide (String.length (str a) = 1)) as [Hone|Hmore];
        apply bind_Ok in Hstep as (f & Hf & Hstep);
        apply bind_Ok in Hstep as (e & He & Hstep);
        injection Hstep as <-; exists f, e;
        (split; [done|]); (split; [done|]);
        apply od_set_fresh; rewrite Hkeys; by apply str_fresh. }
    destruct (IH (S a) (cht0 ++ [(str a, e)])) as (es & -> & Hes); [|done|].
    { rewrite fmap_app, Hkeys, seq_S, fmap_app. done. }
    exists ((str a, e) :: es). split; [by rewrite <- app_assoc|].
    constructor; [|done]. simpl. eauto.
Qed.

(** A successful call read the potentials and appended one entry per
    index [0 .. len(dicts[0])]. *)
Lemma charge_transfer_inv (filename1 filename2 : string)
    (cht : list (string * ct_entry)) :
  charge_transfer_from_file filename1 filename2 = Ok cht →
  ∃ pot_string dicts,
    pot_string_from_file filename1 = Ok pot_string
    ∧ pot_dict_from_string pot_string = Ok dicts
    ∧ Forall2 (λ i e, e.1 = str i
                      ∧ ∃ f, readlines (ldos_name filename2 i) = Ok f
                             ∧ charges f (dict_get dicts.2 (Z.of_nat i))
                               = Ok e.2)
              (seq 0 (size dicts.1 + 1)) cht.
Proof.
  unfold charge_transfer_from_file, range. intros Hl.
  apply bind_Ok in Hl as (pot_string & Hps & Hl).
  apply bind_Ok in Hl as (dicts & Hd & Hl).
  rewrite Nat.sub_0_r in Hl.
  apply charge_transfer_loop in Hl as (es & -> & Hes); [|done].
  by exists pot_string, dicts.
Qed.

(** The entries of a returned table: the keys ["0"] to [str n] in
    order, entry [i] with the atom of index [i] and the five numbers of
    the [i]-th ldos file. *)
Lemma charge_transfer_result_entries (filename1 filename2 pot_string : string)
    (dicts : gmap string Z * gmap Z string)
    (cht : list (string * ct_entry)) :
  pot_string_from_file filename1 = Ok pot_string →
  pot_dict_from_string pot_string = Ok dicts →
  charge_transfer_from_file filename1 filename2 = Ok cht →
  length cht = size dicts.1 + 1
  ∧ cht.*1 = str <$> seq 0 (size dicts.1 + 1)
  ∧ ∀ i, i ≤ size dicts.1 →
      ∃ f atom s p d f1 tot,
        readlines (ldos_name filename2 i) = Ok f
        ∧ dicts.2 !! Z.of_nat i = Some atom
        ∧ token f 3 2 = Ok s ∧ token f 4 2 = Ok p ∧ token f 5 2 = Ok d
        ∧ token f 6 2 = Ok f1 ∧ token f 1 4 = Ok tot
        ∧ cht !! i
          = Some (str i,
                  {[ atom := <["s" := s]> (<["p" := p]> (<["d" := d]>
                               (<["f" := f1]> {["tot" := tot]}))) ]}).
Proof.
  intros Hps Hd Hl.
  apply charge_transfer_inv in Hl as (ps' & dicts' & Hps' & Hd' & Hes).
  rewrite Hps in Hps'. injection Hps' as <-.
  rewrite Hd in Hd'. injection Hd' as <-.
  pose proof (Forall2_length _ _ _ Hes) as Hlen. rewrite length_seq in Hlen.
  split; [done|]. split.
  - clear Hlen. induction Hes as [|i e idxs es [Hi _] _ IH]; [done|].
    rewrite !fmap_cons. by rewrite Hi, IH.
  - intros i Hi.
    destruct (Forall2_lookup_l _ _ _ i i Hes) as ([k e] & He & Hk & f & Hf & Hc).
    { apply lookup_seq. lia. }
    simpl in *. subst k.
    apply charges_spec in Hc
      as (atom & s & p & d & f1 & tot & Ha & Hs & Hp & Hdd & Hf1 & Htot & ->).
    apply dict_get_Ok in Ha.
    exists f, atom, s, p, d, f1, tot. by repeat split.
Qed.



End ChargeTransfer.

(** * Errors of the two parsers *)

Section ParseErrors.
Context `{E : Env}.

Lemma ldos_from_file_reads (filename1 filename2 : string) (l : LDos.t) :
  LDos.from_file filename1 filename2 = Ok l →
  ldos_reads_ok filename1 filename2.
Proof.
  intros Hl. apply from_file_inv in Hl
    as (header_str & header & pot_string & dicts & f & efermi & ldos & a1
        & n & dos_energies & all_pdos & pdoss & tdos & ct & Hhs & Hh & Hps
        & Hd & Hf & Htok & Hldos & H1 & Hn & Hen & Hall & Hp & _ & _ & Hct
        & _).
  apply charge_transfer_inv in Hct as (ps' & dicts' & Hps' & Hd' & Hes).
  rewrite Hps in Hps'. injection Hps' as <-.
  rewrite Hd in Hd'. injection Hd' as <-.
  exists header_str, header, pot_string, dicts.
  split; [done|]. split; [done|]. split; [done|]. split; [done|].
  split; [|split; [|split]].
  - exists f. by rewrite Htok.
  - intros i Hi. unfold range in Hldos.
    destruct (load_ldos_spec _ _ _ _ _ Hldos) as [Hin _].
    destruct (Hin i) as (arr & -> & _); [lia | done].
  - intros i Hi.
    destruct (Forall2_lookup_l _ _ _ i i Hes) as (e & _ & _ & fi & Hfi & Hc).
    { apply lookup_seq. lia. }
    apply charges_spec in Hc
      as (atom & s & p & d & f1 & tot & Ha & Hs & Hp' & Hd' & Hf1 & Htot & _).
    apply dict_get_Ok in Ha. exists fi.
    rewrite Hs, Hp', Hd', Hf1, Htot, Ha. by repeat split.
  - destruct (ldos_lookup _ _ _ _ _ Hldos H1) as (i & Hi & _ & Hload).
    assert (i = 1) as -> by lia.
    exists a1, n. split; [done|]. split; [done|]. split.
    + intros i Hi'. apply comprehension_Ok in Hen.
      destruct (Forall2_lookup_l _ _ _ i i Hen) as (e & _ & ->); [|done].
      by apply range_lookup.
    + intros st Hst. apply list_elem_of_lookup in Hst as [k Hk].
      destruct (Forall2_lookup_l _ _ _ _ _ Hall Hk) as (orbs & _ & Horbs).
      unfold pdos_of_site in Horbs.
      apply bind_Ok in Horbs as (pot & Hpot & Horbs).
      apply dict_get_Ok in Hpot. exists pot. split; [done|].
      destruct (site_pdos_spec _ _ _ _ Horbs)
        as (ds & dp & dd & df & Hds & Hdp & Hdd & Hdf & _).
      intros j c Hj Hc.
      assert (∃ density, LDos.density_column ldos pot c n = Ok density)
        as [density Hdens].
      { assert (c = 1 ∨ c = 2 ∨ c = 3 ∨ c = 4) as Hcases by lia.
        destruct Hcases as [Hc1 | [Hc2 | [Hc3 | Hc4]]]; subst c; eauto. }
      apply density_column_spec in Hdens as [_ Hdens].
      destruct (Hdens j Hj) as (a & x & Ha & Hx & _).
      destruct (ldos_lookup _ _ _ _ _ Hldos Ha) as (i & -> & _ & Hload').
      exists i, a. by rewrite Hx.
Qed.

Lemma table_column_of_density (filename2 : string) (npots : nat)
    (ldos : gmap Z (ndarray float)) (pot : Z) (c n : nat)
    (density : list float) :
  for_each (range 1 (npots + 1))
    (λ i ldos, arr ← loadtxt (LDos.ldos_name filename2 i);
               Ok (<[Z.of_nat i := arr]> ldos)) ∅ = Ok ldos →
  LDos.density_column ldos pot c n = Ok density →
  table_column filename2 pot c n density.
Proof.
  intros Hldos Hdens.
  apply density_column_spec in Hdens as [Hlen Hdens].
  split; [done|]. intros j Hj.
  destruct (Hdens j Hj) as (a & x & Ha & Hx & Hjx).
  destruct (ldos_lookup _ _ _ _ _ Hldos Ha) as (i & Hi & _ & Hload).
  by exists i, a, x.
Qed.

Lemma ldos_from_file_assembled (filename1 filename2 : string) (l : LDos.t) :
  LDos.from_file filename1 filename2 = Ok l →
  ldos_assembled filename1 filename2 l.
Proof.
  intros Hl. apply from_file_inv in Hl
    as (header_str & header & pot_string & dicts & f & efermi & ldos & a1
        & n & dos_energies & all_pdos & pdoss & tdos & ct & Hhs & Hh & Hps
        & Hd & Hf & Htok & Hldos & H1 & Hn & Hen & Hall & Hp & Hlen & Hsum
        & Hct & ->).
  destruct (charge_transfer_result_entries _ _ _ _ _ Hps Hd Hct)
    as (Hctlen & Hkeys & Hentries).
  destruct (ldos_lookup _ _ _ _ _ Hldos H1) as (i1 & Hi1 & _ & Hload).
  assert (i1 = 1) as -> by lia.
  exists header_str, header, pot_string, dicts, f, efermi, a1, n, tdos.
  simpl.
  split; [done|]. split; [done|]. split; [done|]. split; [done|].
  split; [done|]. split; [done|]. split; [done|]. split; [done|].
  split; [done|]. split; [done|]. split; [done|]. split; [done|].
  split; [done|]. split; [|split; [|split; [|split; [done|split; [done|]]]]].
  - intros j Hj. rewrite Hsum by done.
    unfold sum_from, partials_at, partial_dos. simpl. f_equal. symmetry.
    apply (partials_of_all_pdos _ _ _ _ _ Hall).
    intros st orbs Hin Hst. by apply Hp.
  - intros st. split.
    + intros [orbs Horbs]. by apply Hp in Horbs as [Hin _].
    + intros Hin. pose proof Hin as Hk.
      apply list_elem_of_lookup in Hk as [k Hk].
      destruct (Forall2_lookup_l _ _ _ _ _ Hall Hk) as (orbs & _ & Horbs).
      exists orbs. by apply Hp.
  - intros st Hin. pose proof Hin as Hk.
    apply list_elem_of_lookup in Hk as [k Hk].
    destruct (Forall2_lookup_l _ _ _ _ _ Hall Hk) as (orbs & _ & Horbs).
    assert (Hst : pdoss !! st = Some orbs) by (by apply Hp).
    unfold pdos_of_site in Horbs.
    apply bind_Ok in Horbs as (pot & Hpot & Horbs).
    apply dict_get_Ok in Hpot.
    destruct (site_pdos_spec _ _ _ _ Horbs)
      as (ds & dp & dd & df & Hds & Hdp & Hdd & Hdf & ->).
    exists pot, ds, dp, dd, df.
    split; [done|]. split; [done|].
    split; [by eapply table_column_of_density|].
    split; [by eapply table_column_of_density|].
    split; by eapply table_column_of_density.
  - exact Hentries.
Qed.

Lemma xmu_from_file_assembled (filename input_filename : string)
    (x : Xmu.t) :
  Xmu.from_file filename input_filename = Ok x →
  xmu_assembled filename input_filename x.
Proof.
  unfold Xmu.from_file. intros Hx.
  apply bind_Ok in Hx as (data & Hdata & Hx).
  apply bind_Ok in Hx as (header & Hheader & Hx).
  apply bind_Ok in Hx as (parameters & Htags & Hx).
  apply bind_Ok in Hx as (pots & Hpots & Hx).
  apply bind_Ok in Hx as (line & Hline & Hx).
  apply bind_Ok in Hx as (atom & Hatom & Hx).
  injection Hx as <-.
  apply list_get_Ok in Hline, Hatom.
  unfold xmu_assembled. simpl.
  split; [done|]. split; [done|]. split; [done|].
  by exists pots, line.
Qed.

(** C5, as amended: each of the two parsers either raises, and then there
    is no object, or returns an object that is assembled in full from what
    it read; it returns only if every file it opens exists, every line and
    token it indexes is there and every number it converts is one.  Every
    field of the returned object is fixed by the files: for [LDos] the
    structure, the Fermi level, the energies, the total and the partial
    densities and the charge-transfer table ([ldos_assembled]); for [Xmu]
    the table, the header, the tags and the absorbing atom
    ([xmu_assembled]).  The six columns of [xmu.dat] are not among the
    things read: [Xmu.from_file] stores the table as [loadtxt] returned
    it. *)
Theorem parsers_raise_or_return (filename1 filename2 : string)
    (filename input_filename : string) :
  (raises (LDos.from_file filename1 filename2)
   ∨ ∃ l, LDos.from_file filename1 filename2 = Ok l
          ∧ ldos_reads_ok filename1 filename2
          ∧ ldos_assembled filename1 filename2 l)
  ∧ (raises (Xmu.from_file filename input_filename)
     ∨ ∃ x, Xmu.from_file filename input_filename = Ok x
            ∧ xmu_reads_ok filename input_filename
            ∧ xmu_assembled filename input_filename x).
Proof.
  split.
  - destruct (LDos.from_file filename1 filename2) as [l|e] eqn:Hl;
      [right | by left].
    exists l. split; [done|].
    split; [by eapply ldos_from_file_reads | by apply ldos_from_file_assembled].
  - destruct (Xmu.from_file filename input_filename) as [x|e] eqn:Hx;
      [right | by left].
    exists x. split; [done|].
    pose proof (xmu_from_file_assembled _ _ _ Hx)
      as (Hdata & Hheader & Htags & pots & line & Hpots & Hline & Hatom).
    split.
    + unfold xmu_reads_ok. rewrite Hdata, Hheader, Htags.
      split; [done|]. split; [done|]. split; [done|].
      exists pots, line. by rewrite Hatom.
    + split; [done|]. split; [done|]. split; [done|]. by exists pots, line.
Qed.
End ParseErrors.

(** C5 as stated fails: [xmu_short.dat] holds a table with three columns,
    so the columns of mu, mu0 and chi are absent, and [Xmu.from_file]
    returns an Xmu object all the same. *)
Lemma xmu_columns_not_checked : ¬ @xmu_columns_checked Fixture.env.
Proof.
  intros Hchk.
  assert (Hr : raises (Xmu.from_file (E := Fixture.env)
                         "xmu_short.dat" "feff.inp")).
  { apply (Hchk "xmu_short.dat" "feff.inp"
             (Arr2 3 [[7709; -4; -1]; [7710; -3; 0]]%Z) 5).
    - reflexivity.
    - lia.
    - exact I. }
  exact Hr.
Qed.

(** * The theorems on the run of [Fixture] *)

Lemma total_dos_is_sum_of_partials_witness :
  ∃ l, LDos.from_file (E := Fixture.env) "feff.inp" "ldos" = Ok l
       ∧ total_dos l = Some [210; 546]%Z
       ∧ ∃ tdos pot_string dicts,
           @pot_string_from_file Fixture.env "feff.inp" = Ok pot_string
           ∧ @pot_dict_from_string Fixture.env pot_string = Ok dicts
           ∧ total_dos l = Some tdos
           ∧ length tdos
             = length (dos_energies (cdos_total (LDos.complete_dos l)))
           ∧ (∀ j, j < length tdos →
                is_Some (tdos !! j)
                ∧ tdos !! j = sum_from fzero (partials_at l j))
           ∧ ∀ st v o j,
               st ∈ cdos_structure (LDos.complete_dos l) →
               orbitals !! v = Some o →
               j < length tdos →
               ∃ pot i a x,
                 dicts.1 !! @site_symbol Fixture.env st = Some pot
                 ∧ pot = Z.of_nat i
                 ∧ @loadtxt Fixture.env (LDos.ldos_name "ldos" i) = Ok a
                 ∧ np_item2 a j (v + 1) = Ok x
                 ∧ (d ← partial_dos l st o; d !! j) = Some x.
Proof.
  eexists. split; [reflexivity|].
  split; [reflexivity|].
  apply (total_dos_is_sum_of_partials (E := Fixture.env) "feff.inp" "ldos").
  reflexivity.
Defined.

Lemma densities_have_only_spin_up_witness :
  ∃ l, LDos.from_file (E := Fixture.env) "feff.inp" "ldos" = Ok l
       ∧ dom (dos_densities (cdos_total (LDos.complete_dos l))) = {[Up]}
       ∧ ∀ st orbs o spins,
           cdos_pdos (LDos.complete_dos l) !! st = Some orbs →
           orbs !! o = Some spins →
           dom spins = {[Up]} ∧ spins !! Down = None.
Proof.
  eexists. split; [reflexivity|].
  apply (densities_have_only_spin_up (E := Fixture.env) "feff.inp" "ldos").
  reflexivity.
Defined.

Lemma fermi_energy_and_energies_witness :
  ∃ l, LDos.from_file (E := Fixture.env) "feff.inp" "ldos" = Ok l
       ∧ dos_efermi (cdos_total (LDos.complete_dos l)) = (-9)%Z
       ∧ dos_energies (cdos_total (LDos.complete_dos l)) = [-20; -10]%Z
       ∧ (∃ f line tok,
            @readlines Fixture.env "ldos00.dat" = Ok f
            ∧ f !! 0 = Some line
            ∧ split line !! 4 = Some tok
            ∧ @float_of Fixture.env tok
              = Ok (dos_efermi (cdos_total (LDos.complete_dos l))))
       ∧ (∃ a1 n,
            @loadtxt Fixture.env "ldos01.dat" = Ok a1
            ∧ np_len a1 = Ok n
            ∧ length (dos_energies (cdos_total (LDos.complete_dos l))) = n
            ∧ ∀ i, i < n →
                ∃ e, np_item2 a1 i 0 = Ok e
                     ∧ dos_energies (cdos_total (LDos.complete_dos l)) !! i
                       = Some e).
Proof.
  eexists. split; [reflexivity|].
  split; [reflexivity|].
  split; [reflexivity|].
  apply (fermi_energy_and_energies (E := Fixture.env) "feff.inp" "ldos").
  reflexivity.
Defined.

Lemma all_lists_have_the_row_count_witness :
  ∃ l, LDos.from_file (E := Fixture.env) "feff.inp" "ldos" = Ok l
       ∧ ∃ a1 n,
           @loadtxt Fixture.env "ldos01.dat" = Ok a1
           ∧ np_len a1 = Ok n
           ∧ ((∃ ncols rows, a1 = Arr2 ncols rows ∧ n = length rows)
              ∨ (a1 = Arr1 [] ∧ n = 0))
           ∧ length (dos_energies (cdos_total (LDos.complete_dos l))) = n
           ∧ (∀ spin d,
                dos_densities (cdos_total (LDos.complete_dos l)) !! spin
                = Some d →
                length d = n)
           ∧ (∀ st orbs o spins spin d,
                cdos_pdos (LDos.complete_dos l) !! st = Some orbs →
                orbs !! o = Some spins →
                spins !! spin = Some d →
                length d = n).
Proof.
  eexists. split; [reflexivity|].
  apply (all_lists_have_the_row_count (E := Fixture.env) "feff.inp" "ldos").
  reflexivity.
Defined.



(** * More on the object [LDos.from_file] returns *)

Section LDosObject.
Context `{E : Env}.
Import LDos.

(** The per-site dictionary has an entry for exactly the sites of the
    structure, and every entry has exactly the four orbitals s, py, dxy
    and f0 as keys. *)
Theorem pdos_sites_and_orbitals (filename1 filename2 : string) (l : LDos.t) :
  from_file filename1 filename2 = Ok l →
  (∀ st, is_Some (cdos_pdos (complete_dos l) !! st)
         ↔ st ∈ cdos_structure (complete_dos l))
  ∧ ∀ st orbs,
      cdos_pdos (complete_dos l) !! st = Some orbs →
      dom orbs = {[ Orbital_s; Orbital_py; Orbital_dxy; Orbital_f0 ]}.
Proof.
  intros Hl. apply from_file_inv in Hl
    as (header_str & header & pot_string & dicts & f & efermi & ldos & a1
        & n & dos_energies & all_pdos & pdoss & tdos & ct & _ & _ & _ & _
        & _ & _ & _ & _ & _ & _ & Hall & Hp & _ & _ & _ & ->).
  simpl. split.
  - intros st. split.
    + intros [orbs Horbs]. by apply Hp in Horbs as [Hin _].
    + intros Hin. pose proof Hin as Hk.
      apply list_elem_of_lookup in Hk as [k Hk].
      destruct (Forall2_lookup_l _ _ _ _ _ Hall Hk) as (orbs & _ & Horbs).
      exists orbs. by apply Hp.
  - intros st orbs Hst. apply Hp in Hst as [_ Hst].
    unfold pdos_of_site in Hst.
    apply bind_Ok in Hst as (pot & _ & Hst).
    destruct (site_pdos_spec _ _ _ _ Hst)
      as (ds & dp & dd & df & _ & _ & _ & _ & ->).
    rewrite !dom_insert_L, dom_empty_L. set_solver.
Qed.

(** Two sites of the same species carry the same partial densities: the
    decomposition is per potential, not per site. *)
Theorem same_species_same_pdos (filename1 filename2 : string) (l : LDos.t)
    (st st' : Site) :
  from_file filename1 filename2 = Ok l →
  st ∈ cdos_structure (complete_dos l) →
  st' ∈ cdos_structure (complete_dos l) →
  site_symbol st = site_symbol st' →
  is_Some (cdos_pdos (complete_dos l) !! st)
  ∧ cdos_pdos (complete_dos l) !! st = cdos_pdos (complete_dos l) !! st'.
Proof.
  intros Hl. apply from_file_inv in Hl
    as (header_str & header & pot_string & dicts & f & efermi & ldos & a1
        & n & dos_energies & all_pdos & pdoss & tdos & ct & _ & _ & _ & _
        & _ & _ & _ & _ & _ & _ & Hall & Hp & _ & _ & _ & ->).
  simpl. intros Hin Hin' Hsym.
  pose proof Hin as Hk. apply list_elem_of_lookup in Hk as [k Hk].
  destruct (Forall2_lookup_l _ _ _ _ _ Hall Hk) as (orbs & _ & Horbs).
  assert (Hst : pdoss !! st = Some orbs) by (by apply Hp).
  assert (Hst' : pdoss !! st' = Some orbs).
  { apply Hp. split; [done|].
    unfold pdos_of_site in *. by rewrite <- Hsym. }
  rewrite Hst, Hst'. by split.
Qed.

(** For a structure without sites the total density is zero at every
    energy and there is no partial density. *)
Theorem no_sites_zero_total (filename1 filename2 : string) (l : LDos.t) :
  from_file filename1 filename2 = Ok l →
  cdos_structure (complete_dos l) = [] →
  total_dos l
  = Some (replicate (length (dos_energies (cdos_total (complete_dos l))))
                    fzero)
  ∧ cdos_pdos (complete_dos l) = ∅.
Proof.
  intros Hl. apply from_file_inv in Hl
    as (header_str & header & pot_string & dicts & f & efermi & ldos & a1
        & n & dos_energies & all_pdos & pdoss & tdos & ct & _ & _ & _ & _
        & _ & _ & _ & _ & _ & Hen & Hall & Hp & Hlen & Hsum & _ & ->).
  unfold total_dos. simpl. intros Hnil. rewrite Hnil in Hall, Hp.
  apply Forall2_nil_inv_l in Hall as ->.
  apply comprehension_Ok, Forall2_length in Hen.
  rewrite range_length in Hen. rewrite <- Hen.
  split.
  - rewrite lookup_singleton_eq. f_equal. apply list_eq. intros j.
    destruct (decide (j < n)) as [Hj|Hj].
    + rewrite (Hsum j Hj). by rewrite lookup_replicate_2.
    + rewrite lookup_ge_None_2 by lia. symmetry.
      apply lookup_replicate_None. lia.
  - apply map_empty. intros st.
    destruct (pdoss !! st) as [orbs|] eqn:Hst; [|done].
    apply Hp in Hst as [Hin _]. by apply elem_of_nil in Hin.
Qed.
End LDosObject.

(** * More on the accessors of [Xmu] *)

Section XmuAccessors.
Context `{E : Env}.
Import Xmu.

(** When the header's formula is a string, [material_formula] returns
    this string: joining its characters gives it back. *)
Theorem material_formula_of_string (x : Xmu.t) (form : string) :
  header_formula (header x) = Ok form →
  call material_formula x = Ok form.
Proof.
  intros Hform.
  unfold call, material_formula, try_except, mbind, St_bind, attr, lift.
  simpl. rewrite Hform. simpl. by rewrite join_chars.
Qed.

(** The value of [as_dict], step by step: the four columns it takes, the
    EDGE tag, the formula, and the dictionary built from them. *)
Lemma call_as_dict (x : Xmu.t) :
  call as_dict x
  = (es ← np_column (data x) 0;
     ms ← np_column (data x) 3;
     m0s ← np_column (data x) 4;
     cs ← np_column (data x) 5;
     v_edge ← dict_get (parameters x) "EDGE";
     v_formula ← match header_formula (header x) with
                 | Ok form => Ok (join "" (chars form))
                 | Raise IndexError => Ok "No formula provided"
                 | Raise e => Raise e
                 end;
     Ok {| k_module := "pymatgen.io.feff.outputs";
           k_class := "Xmu";
           k_energies := es;
           k_mu := tolist ms;
           k_mu0 := tolist m0s;
           k_chi := tolist cs;
           k_atom := absorbing_atom x;
           k_edge := v_edge;
           k_source := header_source (header x);
           k_calc := if decide (is_Some (parameters x !! "XANES"))
                     then "XANES" else "EXAFS";
           k_formula := v_formula;
           k_HEADER := header_as_dict (header x);
           k_TAGS := parameters x;
           k_c_atom := absorbing_atom x;
           k_xmu := tolist (data x) |}).
Proof.
  unfold call, as_dict, energies, mu, mu0, chi, edge, source, calc,
    material_formula, try_except, mbind, St_bind, result_bind, attr, lift,
    mret, St_ret.
  cbn.
  destruct (np_column (data x) 0) as [es|?]; [cbn | done].
  destruct (np_column (data x) 3) as [ms|?]; [cbn | done].
  destruct (np_column (data x) 4) as [m0s|?]; [cbn | done].
  destruct (np_column (data x) 5) as [cs|?]; [cbn | done].
  destruct (dict_get (parameters x) "EDGE") as [v_edge|?]; [cbn | done].
  destruct (header_formula (header x)) as [form|[]]; reflexivity.
Qed.

(** [as_dict] returns a dictionary exactly when the data table is
    two-dimensional with at least six columns, the parameters have an
    EDGE tag and reading the formula raises nothing but [IndexError]. *)
Theorem as_dict_returns_iff (x : Xmu.t) :
  wf_array (data x) →
  is_ok (call as_dict x)
  ↔ (∃ ncols rows, data x = Arr2 ncols rows ∧ 6 ≤ ncols)
    ∧ is_Some (parameters x !! "EDGE")
    ∧ ∀ e, header_formula (header x) = Raise e → e = IndexError.
Proof.
  intros Hwf. rewrite call_as_dict. split.
  - intros Hok. apply is_ok_Ok in Hok as [d Hd].
    apply bind_Ok in Hd as (es & Hes & Hd).
    apply bind_Ok in Hd as (ms & Hms & Hd).
    apply bind_Ok in Hd as (m0s & Hm0s & Hd).
    apply bind_Ok in Hd as (cs & Hcs & Hd).
    apply bind_Ok in Hd as (v_edge & Hedge & Hd).
    apply bind_Ok in Hd as (v_formula & Hform & _).
    apply np_column_inv in Hcs as (ncols & rows & Hdata & Hc).
    apply dict_get_Ok in Hedge.
    split; [exists ncols, rows; split; [done | lia]|].
    split; [by exists v_edge|].
    intros e He. rewrite He in Hform. by destruct e.
  - intros ((ncols & rows & Hdata & Hc) & [v_edge Hedge] & Hform).
    rewrite Hdata in Hwf |- *. simpl in Hwf.
    destruct (np_column_Ok ncols rows 0 Hwf) as (es & -> & _); [lia|].
    destruct (np_column_Ok ncols rows 3 Hwf) as (ms & -> & _); [lia|].
    destruct (np_column_Ok ncols rows 4 Hwf) as (m0s & -> & _); [lia|].
    destruct (np_column_Ok ncols rows 5 Hwf) as (cs & -> & _); [lia|].
    unfold dict_get. rewrite Hedge. simpl.
    destruct (header_formula (header x)) as [form|e] eqn:Hf; [done|].
    by rewrite (Hform e eq_refl).
Qed.

(** In the dictionary [as_dict] returns, the entries atom and c_atom are
    the absorbing atom, TAGS the parameters, HEADER the serialised header,
    source, calc, edge and formula what the accessors of these names
    return, xmu the rows of the data table of the object, and energies,
    mu, mu0 and chi the columns 0, 3, 4 and 5 of these rows. *)
Theorem as_dict_entries (x : Xmu.t) (d : xdict) :
  call as_dict x = Ok d →
  k_module d = "pymatgen.io.feff.outputs"
  ∧ k_class d = "Xmu"
  ∧ k_atom d = absorbing_atom x
  ∧ k_c_atom d = absorbing_atom x
  ∧ k_TAGS d = parameters x
  ∧ k_HEADER d = header_as_dict (header x)
  ∧ k_source d = header_source (header x)
  ∧ call calc x = Ok (k_calc d)
  ∧ call edge x = Ok (k_edge d)
  ∧ call material_formula x = Ok (k_formula d)
  ∧ k_xmu d = tolist (data x)
  ∧ ∃ ncols rows es ms m0s cs,
      data x = Arr2 ncols rows
      ∧ k_xmu d = NList2 rows
      ∧ k_energies d = Arr1 es
      ∧ k_mu d = NList ms
      ∧ k_mu0 d = NList m0s
      ∧ k_chi d = NList cs
      ∧ Forall2 (λ row e, row !! 0 = Some e) rows es
      ∧ Forall2 (λ row m, row !! 3 = Some m) rows ms
      ∧ Forall2 (λ row m0, row !! 4 = Some m0) rows m0s
      ∧ Forall2 (λ row c, row !! 5 = Some c) rows cs.
Proof.
  rewrite call_as_dict. intros Hd.
  apply bind_Ok in Hd as (es & Hes & Hd).
  apply bind_Ok in Hd as (ms & Hms & Hd).
  apply bind_Ok in Hd as (m0s & Hm0s & Hd).
  apply bind_Ok in Hd as (cs & Hcs & Hd).
  apply bind_Ok in Hd as (v_edge & Hedge & Hd).
  apply bind_Ok in Hd as (v_formula & Hform & Hd).
  injection Hd as <-. simpl.
  assert (Hcalc : call calc x
                  = Ok (if decide (is_Some (parameters x !! "XANES"))
                        then "XANES" else "EXAFS")) by reflexivity.
  assert (Hedge' : call edge x = Ok v_edge).
  { unfold call, edge, mbind, St_bind, attr, lift. simpl. by rewrite Hedge. }
  assert (Hform' : call material_formula x = Ok v_formula).
  { unfold call, material_formula, try_except, mbind, St_bind, attr, lift.
    simpl. revert Hform.
    destruct (header_formula (header x)) as [form|[]]; simpl;
      by intros [= <-]. }
  destruct (np_column_inv _ _ _ Hes) as (ncols & rows & Hdata & _).
  rewrite Hdata in Hes, Hms, Hm0s, Hcs |- *.
  assert (Hcol : ∀ c col,
            np_column (Arr2 ncols rows) c = Ok col →
            ∃ ys, col = Arr1 ys ∧ Forall2 (λ row y, row !! c = Some y) rows ys).
  { intros c col. unfold np_column.
    destruct (decide (c < ncols)) as [Hlt|Hge]; [|done]. intros Hc.
    apply bind_Ok in Hc as (ys & Hys & Hc). injection Hc as <-.
    exists ys. split; [done|]. apply comprehension_Ok in Hys.
    eapply Forall2_impl; [exact Hys|]. intros row y. apply list_get_Ok. }
  destruct (Hcol _ _ Hes) as (es' & -> & Hes').
  destruct (Hcol _ _ Hms) as (ms' & -> & Hms').
  destruct (Hcol _ _ Hm0s) as (m0s' & -> & Hm0s').
  destruct (Hcol _ _ Hcs) as (cs' & -> & Hcs').
  split; [done|]. split; [done|]. split; [done|]. split; [done|].
  split; [done|]. split; [done|]. split; [done|]. split; [exact Hcalc|].
  split; [exact Hedge'|]. split; [exact Hform'|]. split; [done|].
  exists ncols, rows, es', ms', m0s', cs'. simpl.
  split; [done|]. split; [done|]. split; [done|]. split; [done|].
  split; [done|]. split; [done|]. by repeat split.
Qed.

(** A table without rows does not survive the round trip: [as_dict]
    writes the empty list, [from_dict] reads it back as a one-dimensional
    empty array, and the rebuilt object raises [IndexError] on its first
    column and in [as_dict]. *)
Theorem empty_table_loses_shape (x : Xmu.t) (ncols : nat) (h : Header) :
  data x = Arr2 ncols [] →
  6 ≤ ncols →
  is_Some (parameters x !! "EDGE") →
  (∀ e, header_formula (header x) = Raise e → e = IndexError) →
  header_from_dict (header_as_dict (header x)) = Ok h →
  ∃ y, roundtrip x = Ok y
       ∧ data y = Arr1 []
       ∧ call energies y = Raise IndexError
       ∧ call as_dict y = Raise IndexError.
Proof.
  intros Hdata Hc [v_edge Hedge] Hform Hh.
  unfold roundtrip. rewrite call_as_dict, Hdata. unfold np_column.
  rewrite (decide_True (P := 0 < ncols)) by lia.
  rewrite (decide_True (P := 3 < ncols)) by lia.
  rewrite (decide_True (P := 4 < ncols)) by lia.
  rewrite (decide_True (P := 5 < ncols)) by lia.
  simpl. unfold dict_get. rewrite Hedge. simpl.
  assert (∃ v_formula,
            match header_formula (header x) with
            | Ok form => Ok (join "" (chars form))
            | Raise IndexError => Ok "No formula provided"
            | Raise e => Raise e
            end = Ok v_formula) as [v_formula ->].
  { destruct (header_formula (header x)) as [form|e] eqn:Hf; [by eexists|].
    rewrite (Hform e eq_refl). by eexists. }
  simpl. unfold from_dict. simpl. rewrite Hh. simpl.
  eexists. split; [done|]. split; [done|].
  split; [done|]. by rewrite call_as_dict.
Qed.
End XmuAccessors.

(** * [LDos.charge_transfer_to_string] *)

Section ChargeTransferString.
Context `{E : Env}.
Import LDos.

Lemma for_each_error {A S} (P : exn → Prop) (xs : list A)
    (body : A → S → result S) (s : S) (e : exn) :
  (∀ x t e', body x t = Raise e' → P e') →
  for_each xs body s = Raise e → P e.
Proof.
  intros Hbody. revert s. induction xs as [|x xs IH]; intros s; [done|].
  rewrite for_each_cons. destruct (body x s) as [s'|e'] eqn:Hx; simpl.
  - apply IH.
  - intros [= <-]. by eapply Hbody.
Qed.

Lemma for_each_raises {A S} (xs : list A) (body : A → S → result S)
    (x : A) (s : S) :
  x ∈ xs → (∀ t, raises (body x t)) → raises (for_each xs body s).
Proof.
  intros Hin Hx. revert s. induction xs as [|y xs IH]; intros s.
  - by apply elem_of_nil in Hin.
  - rewrite for_each_cons. apply elem_of_cons in Hin as [<-|Hin].
    + specialize (Hx s). by destruct (body x s).
    + destruct (body y s) as [s'|e]; [simpl | done]. by apply IH.
Qed.

Lemma lit_get_error {V} (d : list (string * V)) (k : string) (e : exn) :
  lit_get d k = Raise e → e = KeyError.
Proof.
  induction d as [|[k' v] d IH]; simpl; [by intros [= <-]|].
  by case_decide.
Qed.

Lemma lit_get_missing {V} (d : list (string * V)) (k : string) :
  k ∉ d.*1 → lit_get d k = Raise KeyError.
Proof.
  induction d as [|[k' v] d IH]; simpl; [done|].
  rewrite not_elem_of_cons. intros [Hne Hk].
  rewrite decide_False by congruence. by apply IH.
Qed.


Lemma entry_lines_error (entry : ct_entry) (chts : list string) (e : exn) :
  entry_lines entry chts = Raise e → e = KeyError.
Proof.
  unfold entry_lines. apply (for_each_error (λ e, e = KeyError)).
  intros [atom v2] t e' He'.
  unfold dict_get in He'.
  destruct (v2 !! "s"); simpl in He'; [|by injection He' as <-].
  destruct (v2 !! "p"); simpl in He'; [|by injection He' as <-].
  destruct (v2 !! "d"); simpl in He'; [|by injection He' as <-].
  destruct (v2 !! "f"); simpl in He'; [|by injection He' as <-].
  destruct (v2 !! "tot"); simpl in He'; [|by injection He' as <-].
  done.
Qed.


(** What the method computes from the table. *)
Lemma call_to_string (l : LDos.t) :
  call charge_transfer_to_string l
  = (chts ← for_each (range 0 (length (charge_transfer l)))
              (λ i chts, entry ← lit_get (charge_transfer l) (str i);
                         entry_lines entry chts)
              [ct_heading];
     Ok (join "" chts)).
Proof.
  unfold call, charge_transfer_to_string, mbind at 1 2 3, St_bind, attr,
    lift, mret, St_ret.
  simpl.
  by destruct (for_each (range 0 (length (charge_transfer l))) _ _).
Qed.



(** [charge_transfer_to_string] raises nothing but [KeyError], and it
    does raise it when the table has no entry under the decimal string of
    one of the indices below its length. *)
Theorem to_string_errors (l : LDos.t) :
  (∀ e, call charge_transfer_to_string l = Raise e → e = KeyError)
  ∧ ∀ i, i < length (charge_transfer l) →
         str i ∉ (charge_transfer l).*1 →
         call charge_transfer_to_string l = Raise KeyError.
Proof.
  assert (Hkind : ∀ e, call charge_transfer_to_string l = Raise e →
                       e = KeyError).
  { intros e. rewrite call_to_string.
    destruct (for_each _ _ _) as [chts|e'] eqn:Hloop; [done|].
    simpl. intros [= <-]. revert Hloop.
    apply (for_each_error (λ e, e = KeyError)).
    intros i t e'' Hbody.
    destruct (lit_get (charge_transfer l) (str i)) as [entry|e3] eqn:Hget.
    - simpl in Hbody. by eapply entry_lines_error.
    - simpl in Hbody. injection Hbody as <-. by eapply lit_get_error. }
  split; [exact Hkind|].
  intros i Hi Hmissing.
  assert (Hr : raises (call charge_transfer_to_string l)).
  { rewrite call_to_string. apply bind_Raise.
    apply (for_each_raises _ _ i).
    - unfold range. apply elem_of_seq. lia.
    - intros t. by rewrite (lit_get_missing _ _ Hmissing). }
  destruct (call charge_transfer_to_string l) as [?|e] eqn:Hcall; [done|].
  by rewrite (Hkind e).
Qed.
End ChargeTransferString.

(** * [LDos.from_file]: runs it rejects *)

Section LDosRejects.
Context `{E : Env}.
Import LDos.

(** When every numbered file loads, the loop over them ends. *)
Lemma load_ldos_total (base : string) (a k : nat)
    (m0 : gmap Z (ndarray float)) :
  (∀ i, a ≤ i < a + k → is_ok (loadtxt (ldos_name base i))) →
  ∃ m, for_each (seq a k)
         (λ i ldos, arr ← loadtxt (ldos_name base i);
                    Ok (<[Z.of_nat i := arr]> ldos)) m0 = Ok m.
Proof.
  revert a m0. induction k as [|k IH]; intros a m0 Hall; [by exists m0|].
  rewrite <- cons_seq, for_each_cons.
  assert (Ha : is_ok (loadtxt (ldos_name base a))) by (apply Hall; lia).
  apply is_ok_Ok in Ha as [arr ->]. simpl.
  apply IH. intros i Hi. apply Hall. lia.
Qed.

(** Once the input file, the Fermi level and the tables are read, an
    exception of the first pass over [ldos[1]] is the one of [from_file]. *)
Lemma from_file_first_pass (filename1 filename2 header_str : string)
    (header : Header) (pot_string : string)
    (dicts : gmap string Z * gmap Z string) (f : list string)
    (ldos : gmap Z (ndarray float)) (e : exn) :
  header_string_from_file filename1 = Ok header_str →
  header_from_string header_str = Ok header →
  pot_string_from_file filename1 = Ok pot_string →
  pot_dict_from_string pot_string = Ok dicts →
  readlines (filename2 +:+ "00.dat") = Ok f →
  is_ok (token f 0 4) →
  for_each (range 1 (size dicts.1 + 1))
    (λ i ldos, arr ← loadtxt (ldos_name filename2 i);
               Ok (<[Z.of_nat i := arr]> ldos)) ∅ = Ok ldos →
  (a1 ← dict_get ldos 1%Z;
   n ← np_len a1;
   for_each (range 0 n)
     (λ i es, a ← dict_get ldos 1%Z; x ← np_item2 a i 0; Ok (es ++ [x]))
     []) = Raise e →
  from_file filename1 filename2 = Raise e.
Proof.
  intros Hhs Hh Hps Hd Hf Htok Hldos Hpass. unfold from_file.
  rewrite Hhs. simpl. rewrite Hh. simpl. rewrite Hps. simpl.
  rewrite Hd. simpl. rewrite Hf. simpl.
  apply is_ok_Ok in Htok as [efermi Htok]. unfold token in Htok.
  apply bind_Ok in Htok as (l0 & Hl0 & Htok).
  apply bind_Ok in Htok as (tok & Htk & Hef).
  rewrite Hl0. simpl. rewrite Htk. simpl. rewrite Hef. simpl.
  rewrite Hldos. simpl.
  destruct (dict_get ldos 1%Z) as [a1|e1]; simpl in *;
    [|by injection Hpass as <-].
  destruct (np_len a1) as [n|e2]; simpl in *; [|by injection Hpass as <-].
  by rewrite Hpass.
Qed.

(** A run without potentials is rejected with [KeyError]: no table is
    loaded, so [ldos[1]] does not exist. *)
Theorem from_file_without_potentials (filename1 filename2 header_str : string)
    (header : Header) (pot_string : string)
    (dicts : gmap string Z * gmap Z string) (f : list string) :
  header_string_from_file filename1 = Ok header_str →
  header_from_string header_str = Ok header →
  pot_string_from_file filename1 = Ok pot_string →
  pot_dict_from_string pot_string = Ok dicts →
  readlines (filename2 +:+ "00.dat") = Ok f →
  is_ok (token f 0 4) →
  size dicts.1 = 0 →
  from_file filename1 filename2 = Raise KeyError.
Proof.
  intros Hhs Hh Hps Hd Hf Htok Hsize.
  apply (from_file_first_pass _ _ _ _ _ _ _ ∅ _ Hhs Hh Hps Hd Hf Htok).
  - by rewrite Hsize.
  - done.
Qed.

(** A first table that [loadtxt] returns with fewer than two dimensions
    is rejected: a non-empty one-dimensional array (a file with a single
    row or a single column) with [IndexError], a zero-dimensional one (a
    file with a single number) with [TypeError]. *)
Theorem from_file_flat_first_table (filename1 filename2 header_str : string)
    (header : Header) (pot_string : string)
    (dicts : gmap string Z * gmap Z string) (f : list string)
    (a1 : ndarray float) :
  header_string_from_file filename1 = Ok header_str →
  header_from_string header_str = Ok header →
  pot_string_from_file filename1 = Ok pot_string →
  pot_dict_from_string pot_string = Ok dicts →
  readlines (filename2 +:+ "00.dat") = Ok f →
  is_ok (token f 0 4) →
  (∀ i, 1 ≤ i ≤ size dicts.1 → is_ok (loadtxt (ldos_name filename2 i))) →
  1 ≤ size dicts.1 →
  loadtxt (filename2 +:+ "01.dat") = Ok a1 →
  (∀ x xs, a1 = Arr1 (x :: xs) →
           from_file filename1 filename2 = Raise IndexError)
  ∧ (∀ x, a1 = Arr0 x → from_file filename1 filename2 = Raise TypeError).
Proof.
  intros Hhs Hh Hps Hd Hf Htok Hload Hsize Ha1.
  destruct (load_ldos_total filename2 1 (size dicts.1 + 1 - 1) ∅)
    as [ldos Hldos].
  { intros i Hi. apply Hload. lia. }
  assert (H1 : ldos !! 1%Z = Some a1).
  { destruct (load_ldos_spec _ _ _ _ _ Hldos) as [Hin _].
    destruct (Hin 1) as (arr & Harr & Hm); [lia|].
    rewrite first_ldos_name, Ha1 in Harr. by injection Harr as <-. }
  split.
  - intros x xs ->.
    apply (from_file_first_pass _ _ _ _ _ _ _ ldos _
             Hhs Hh Hps Hd Hf Htok Hldos).
    unfold dict_get. rewrite H1. simpl. done.
  - intros x ->.
    apply (from_file_first_pass _ _ _ _ _ _ _ ldos _
             Hhs Hh Hps Hd Hf Htok Hldos).
    unfold dict_get. by rewrite H1.
Qed.
End LDosRejects.

(** * These theorems on the runs of [Fixture] and [Runs] *)

Lemma pdos_sites_and_orbitals_witness :
  ∃ l, LDos.from_file (E := Fixture.env) "feff.inp" "ldos" = Ok l
       ∧ (∀ st, is_Some (cdos_pdos (LDos.complete_dos l) !! st)
                ↔ st ∈ cdos_structure (LDos.complete_dos l))
       ∧ ∀ st orbs,
           cdos_pdos (LDos.complete_dos l) !! st = Some orbs →
           dom orbs = {[ Orbital_s; Orbital_py; Orbital_dxy; Orbital_f0 ]}.
Proof.
  eexists. split; [reflexivity|].
  apply (pdos_sites_and_orbitals (E := Fixture.env) "feff.inp" "ldos").
  reflexivity.
Defined.

Lemma same_species_same_pdos_witness :
  ∃ l, LDos.from_file (E := Fixture.env) "feff.inp" "ldos" = Ok l
       ∧ @site_symbol Fixture.env ("O", 1) = @site_symbol Fixture.env ("O", 2)
       ∧ is_Some (cdos_pdos (LDos.complete_dos l) !! ("O", 1))
       ∧ cdos_pdos (LDos.complete_dos l) !! ("O", 1)
         = cdos_pdos (LDos.complete_dos l) !! ("O", 2).
Proof.
  eexists. split; [reflexivity|]. split; [reflexivity|].
  apply (same_species_same_pdos (E := Fixture.env) "feff.inp" "ldos").
  - reflexivity.
  - apply list_elem_of_In. simpl. tauto.
  - apply list_elem_of_In. simpl. tauto.
  - reflexivity.
Defined.

Lemma no_sites_zero_total_witness :
  ∃ l, LDos.from_file (E := Runs.no_sites) "feff.inp" "ldos" = Ok l
       ∧ cdos_structure (LDos.complete_dos l) = []
       ∧ total_dos l = Some [0; 0]%Z
       ∧ total_dos l
         = Some (replicate
                   (length (dos_energies (cdos_total (LDos.complete_dos l))))
                   (@fzero Runs.no_sites))
       ∧ cdos_pdos (LDos.complete_dos l) = ∅.
Proof.
  eexists. split; [reflexivity|]. split; [reflexivity|].
  split; [reflexivity|].
  apply (no_sites_zero_total (E := Runs.no_sites) "feff.inp" "ldos");
    reflexivity.
Defined.

Lemma material_formula_of_string_witness :
  @header_formula Fixture.env (Xmu.header Fixture.xmu) = Ok "Co1 O2"
  ∧ call Xmu.material_formula Fixture.xmu = Ok "Co1 O2".
Proof.
  split; [reflexivity|].
  apply (material_formula_of_string (E := Fixture.env) Fixture.xmu).
  reflexivity.
Defined.

Lemma as_dict_returns_iff_witness :
  wf_array (Xmu.data Fixture.xmu)
  ∧ (is_ok (call Xmu.as_dict Fixture.xmu)
     ↔ (∃ ncols rows, Xmu.data Fixture.xmu = Arr2 ncols rows ∧ 6 ≤ ncols)
       ∧ is_Some (Xmu.parameters Fixture.xmu !! "EDGE")
       ∧ ∀ e, @header_formula Fixture.env (Xmu.header Fixture.xmu) = Raise e →
              e = IndexError).
Proof.
  assert (Hwf : wf_array (Xmu.data Fixture.xmu)) by repeat constructor.
  split; [exact Hwf|].
  exact (as_dict_returns_iff (E := Fixture.env) Fixture.xmu Hwf).
Defined.

Lemma as_dict_entries_witness :
  ∃ d, call Xmu.as_dict Fixture.xmu = Ok d
       ∧ Xmu.k_mu d = NList [11; 21]%Z
       ∧ Xmu.k_module d = "pymatgen.io.feff.outputs"
       ∧ Xmu.k_class d = "Xmu"
       ∧ Xmu.k_atom d = Xmu.absorbing_atom Fixture.xmu
       ∧ Xmu.k_c_atom d = Xmu.absorbing_atom Fixture.xmu
       ∧ Xmu.k_TAGS d = Xmu.parameters Fixture.xmu
       ∧ Xmu.k_HEADER d = @header_as_dict Fixture.env (Xmu.header Fixture.xmu)
       ∧ Xmu.k_source d = @header_source Fixture.env (Xmu.header Fixture.xmu)
       ∧ call Xmu.calc Fixture.xmu = Ok (Xmu.k_calc d)
       ∧ call Xmu.edge Fixture.xmu = Ok (Xmu.k_edge d)
       ∧ call Xmu.material_formula Fixture.xmu = Ok (Xmu.k_formula d)
       ∧ Xmu.k_xmu d = tolist (Xmu.data Fixture.xmu)
       ∧ ∃ ncols rows es ms m0s cs,
           Xmu.data Fixture.xmu = Arr2 ncols rows
           ∧ Xmu.k_xmu d = NList2 rows
           ∧ Xmu.k_energies d = Arr1 es
           ∧ Xmu.k_mu d = NList ms
           ∧ Xmu.k_mu0 d = NList m0s
           ∧ Xmu.k_chi d = NList cs
           ∧ Forall2 (λ row e, row !! 0 = Some e) rows es
           ∧ Forall2 (λ row m, row !! 3 = Some m) rows ms
           ∧ Forall2 (λ row m0, row !! 4 = Some m0) rows m0s
           ∧ Forall2 (λ row c, row !! 5 = Some c) rows cs.
Proof.
  eexists. split; [reflexivity|]. split; [reflexivity|].
  apply (as_dict_entries (E := Fixture.env) Fixture.xmu).
  reflexivity.
Defined.

Lemma empty_table_loses_shape_witness :
  Xmu.data Runs.empty_xmu = Arr2 6 []
  ∧ is_Some (Xmu.parameters Runs.empty_xmu !! "EDGE")
  ∧ ∃ y, roundtrip Runs.empty_xmu = Ok y
         ∧ Xmu.data y = Arr1 []
         ∧ call Xmu.energies y = Raise IndexError
         ∧ call Xmu.as_dict y = Raise IndexError.
Proof.
  assert (Hedge : is_Some (Xmu.parameters Runs.empty_xmu !! "EDGE"))
    by (by eexists).
  split; [reflexivity|]. split; [exact Hedge|].
  apply (empty_table_loses_shape (E := Fixture.env) Runs.empty_xmu 6
           Fixture.sites).
  - reflexivity.
  - lia.
  - exact Hedge.
  - intros e He. discriminate He.
  - reflexivity.
Defined.


Lemma from_file_without_potentials_witness :
  @pot_dict_from_string Runs.no_potentials Fixture.pot_string = Ok (∅, ∅)
  ∧ LDos.from_file (E := Runs.no_potentials) "feff.inp" "ldos"
    = Raise KeyError.
Proof.
  split; [reflexivity|].
  apply (from_file_without_potentials (E := Runs.no_potentials)
           "feff.inp" "ldos" "TITLE CoO2" Fixture.sites Fixture.pot_string
           (∅, ∅) (Fixture.header_lines "-9" "3" "1" "2" "0" "0"));
    first [reflexivity | exact I].
Defined.

Lemma from_file_flat_first_table_witness :
  @loadtxt Runs.one_row "ldos01.dat" = Ok (Arr1 [-20; 1; 2; 3; 4]%Z)
  ∧ LDos.from_file (E := Runs.one_row) "feff.inp" "ldos" = Raise IndexError.
Proof.
  split; [reflexivity|].
  refine (proj1 (from_file_flat_first_table (E := Runs.one_row)
                   "feff.inp" "ldos" "TITLE CoO2" Fixture.sites
                   Fixture.pot_string Runs.dicts
                   (Fixture.header_lines "-9" "3" "1" "2" "0" "0")
                   (Arr1 [-20; 1; 2; 3; 4]%Z) _ _ _ _ _ _ _ _ _)
                (-20)%Z [1; 2; 3; 4]%Z eq_refl);
    try first [reflexivity | exact I].
  - intros i Hi.
    assert (i = 1 ∨ i = 2) as Hcases by (change (size Runs.dicts.1) with 2 in Hi; lia).
    destruct Hcases as [Hi1 | Hi2]; subst i; exact I.
  - change (size Runs.dicts.1) with 2. lia.
Defined.

(** * The names of the ldos files *)

Section FileNames.
Import LDos.

Lemma string_app_inj_l (s t u : string) : s +:+ t = s +:+ u → t = u.
Proof. induction s as [|c s IH]; simpl; [done|]. intros [= Heq]. auto. Qed.

Lemma string_app_length (s t : string) :
  String.length (s +:+ t) = String.length s + String.length t.
Proof. induction s as [|c s IH]; simpl; [done|]. by rewrite IH. Qed.

Lemma string_app_inj_r (s t u : string) : s +:+ u = t +:+ u → s = t.
Proof.
  revert t. induction s as [|c s IH]; intros [|c' t] Heq; simpl in Heq.
  - done.
  - apply (f_equal String.length) in Heq. simpl in Heq.
    rewrite !string_app_length in Heq. simpl in Heq. lia.
  - apply (f_equal String.length) in Heq. simpl in Heq.
    rewrite !string_app_length in Heq. simpl in Heq. lia.
  - injection Heq as -> Heq. f_equal. by apply IH.
Qed.

(** The digits of a positive number do not start with a zero. *)
Lemma pretty_N_go_no_leading_zero (x : N) (s s' : string) :
  (0 < x)%N → pretty_N_go x s ≠ "0" +:+ s'.
Proof.
  revert s. induction (N.lt_wf_0 x) as [x _ IH]; intros s Hx.
  rewrite pretty_N_go_step by done.
  assert ((0 < x < 10) ∨ (10 ≤ x))%N as [Hsmall|Hbig] by lia.
  - replace (x `div` 10)%N with 0%N by (symmetry; apply N.div_small; lia).
    rewrite pretty_N_go_0, N.mod_small by lia.
    assert (x = 1 ∨ x = 2 ∨ x = 3 ∨ x = 4 ∨ x = 5 ∨ x = 6
            ∨ x = 7 ∨ x = 8 ∨ x = 9)%N as Hcases by lia.
    destruct Hcases as [->|[->|[->|[->|[->|[->|[->|[->| ->]]]]]]]]; done.
  - apply IH.
    + apply N.div_lt; lia.
    + apply N.div_str_pos. lia.
Qed.

Lemma pretty_N_go_length (x : N) (s : string) :
  String.length s ≤ String.length (pretty_N_go x s).
Proof.
  revert s. induction (N.lt_wf_0 x) as [x _ IH]; intros s.
  assert (x = 0 ∨ 0 < x)%N as [->|Hx] by lia; [by rewrite pretty_N_go_0|].
  rewrite pretty_N_go_step by done.
  etrans; [|apply IH; by apply N.div_lt]. simpl. lia.
Qed.

Lemma str_no_leading_zero (i : nat) (s' : string) :
  0 < i → str i ≠ "0" +:+ s'.
Proof.
  intros Hi. unfold str, pretty, pretty_nat, pretty, pretty_N.
  rewrite decide_False by lia. apply pretty_N_go_no_leading_zero. lia.
Qed.

(** One digit is written for exactly the numbers below ten. *)
Lemma str_length_one (i : nat) : String.length (str i) = 1 ↔ i < 10.
Proof.
  split.
  - intros Hlen. destruct (decide (i < 10)) as [|Hbig]; [done|]. exfalso.
    revert Hlen. unfold str, pretty, pretty_nat, pretty, pretty_N.
    rewrite decide_False by lia.
    rewrite 2!pretty_N_go_step by (try apply N.div_str_pos; lia).
    pose proof (pretty_N_go_length ((N.of_nat i `div` 10) `div` 10)
      (String (pretty_N_char ((N.of_nat i `div` 10) `mod` 10))
         (String (pretty_N_char (N.of_nat i `mod` 10)) ""))) as Hlen.
    simpl in Hlen. lia.
  - intros Hi.
    do 10 (destruct i as [|i]; [reflexivity|]). lia.
Qed.

(** The indices below ten are padded with one zero, the others are
    written as they are. *)
Theorem ldos_name_padding (base : string) (i : nat) :
  ldos_name base i
  = if decide (i < 10) then base +:+ "0" +:+ str i +:+ ".dat"
    else base +:+ str i +:+ ".dat".
Proof.
  unfold ldos_name.
  destruct (decide (String.length (str i) = 1)) as [Hone|Hmore];
    destruct (decide (i < 10)) as [Hi|Hi]; try done.
  - by apply str_length_one in Hone.
  - by apply str_length_one in Hi.
Qed.

(** Two indices never share a file: the name determines the index. *)
Theorem ldos_name_inj (base : string) (i j : nat) :
  ldos_name base i = ldos_name base j → i = j.
Proof.
  assert (Hmixed : ∀ a b,
    String.length (str a) = 1 → String.length (str b) ≠ 1 →
    base +:+ "0" +:+ str a +:+ ".dat" ≠ base +:+ str b +:+ ".dat").
  { intros a b Ha Hb Heq. apply string_app_inj_l in Heq.
    destruct (decide (b = 0)) as [->|Hb0]; [by apply Hb|].
    assert (Hprefix : str b = "0" +:+ str a).
    { apply (string_app_inj_r _ _ ".dat"). rewrite <- Heq. reflexivity. }
    revert Hprefix. apply str_no_leading_zero. lia. }
  unfold ldos_name.
  destruct (decide (String.length (str i) = 1)) as [Hi|Hi];
    destruct (decide (String.length (str j) = 1)) as [Hj|Hj]; intros Heq.
  - apply string_app_inj_l, string_app_inj_l, string_app_inj_r in Heq.
    by apply (inj pretty) in Heq.
  - by destruct (Hmixed i j).
  - symmetry in Heq. by destruct (Hmixed j i).
  - apply string_app_inj_l, string_app_inj_r in Heq.
    by apply (inj pretty) in Heq.
Qed.
End FileNames.

(** * The first error decides *)

Section FirstError.
Context `{E : Env}.
Import LDos.

(** A loop whose rounds succeed up to the element [x], where the round
    raises [e], raises [e]. *)
Lemma for_each_first_raise {A S} (pre post : list A) (x : A)
    (body : A → S → result S) (s : S) (e : exn) :
  (∀ y t, y ∈ pre → is_ok (body y t)) →
  (∀ t, body x t = Raise e) →
  for_each (pre ++ x :: post) body s = Raise e.
Proof.
  revert s. induction pre as [|y pre IH]; intros s Hpre Hx.
  - simpl. by rewrite Hx.
  - rewrite <- app_comm_cons, for_each_cons.
    assert (Hy : is_ok (body y s)) by (apply Hpre; by left).
    apply is_ok_Ok in Hy as [s' ->]. simpl.
    apply IH; [|done]. intros z t Hz. apply Hpre. by right.
Qed.

Lemma seq_split (a k i : nat) :
  a ≤ i < a + k →
  seq a k = seq a (i - a) ++ i :: seq (S i) (a + k - S i).
Proof.
  intros Hi.
  assert (Hseq : seq a ((i - a) + S (a + k - S i))
                 = seq a (i - a)
                   ++ (a + (i - a)) :: seq (S (a + (i - a))) (a + k - S i))
    by (rewrite seq_app; reflexivity).
  replace (i - a + S (a + k - S i)) with k in Hseq by lia.
  replace (a + (i - a)) with i in Hseq by lia.
  exact Hseq.
Qed.

(** [charge_transfer_from_file] reads the entries in the order of the
    indices and stops at the first one it cannot read: the exception of
    this entry, a missing file, line or token or a number that is none,
    is raised unchanged. *)
Theorem charge_transfer_first_error (filename1 filename2 pot_string : string)
    (dicts : gmap string Z * gmap Z string) (i : nat) (e : exn) :
  pot_string_from_file filename1 = Ok pot_string →
  pot_dict_from_string pot_string = Ok dicts →
  i ≤ size dicts.1 →
  (∀ k, k < i → is_ok (read_entry filename2 dicts.2 k)) →
  read_entry filename2 dicts.2 i = Raise e →
  charge_transfer_from_file filename1 filename2 = Raise e.
Proof.
  intros Hps Hd Hi Hbefore Hfail. unfold charge_transfer_from_file.
  rewrite Hps. simpl. rewrite Hd. simpl. unfold range.
  rewrite (seq_split 0 _ i) by lia.
  assert (Hbody : ∀ k cht,
    (if decide (String.length (str k) = 1)
     then f ← readlines (filename2 +:+ "0" +:+ str k +:+ ".dat");
          e ← charges f (dict_get dicts.2 (Z.of_nat k));
          Ok (od_set cht (str k) e)
     else f ← readlines (filename2 +:+ str k +:+ ".dat");
          e ← charges f (dict_get dicts.2 (Z.of_nat k));
          Ok (od_set cht (str k) e))
    = (e ← read_entry filename2 dicts.2 k; Ok (od_set cht (str k) e))).
  { intros k cht. unfold read_entry, ldos_name.
    destruct (decide (String.length (str k) = 1));
      by destruct (readlines _). }
  apply for_each_first_raise.
  - intros k cht Hk. rewrite Hbody.
    apply elem_of_seq in Hk.
    assert (Hok : is_ok (read_entry filename2 dicts.2 k))
      by (apply Hbefore; lia).
    apply is_ok_Ok in Hok as [entry ->]. done.
  - intros cht. rewrite Hbody. by rewrite Hfail.
Qed.

(** [from_file] loads the tables in the order of the indices and stops
    at the first one [loadtxt] rejects: its exception is raised
    unchanged. *)
Theorem from_file_first_table_error (filename1 filename2 header_str : string)
    (header : Header) (pot_string : string)
    (dicts : gmap string Z * gmap Z string) (f : list string)
    (i : nat) (e : exn) :
  header_string_from_file filename1 = Ok header_str →
  header_from_string header_str = Ok header →
  pot_string_from_file filename1 = Ok pot_string →
  pot_dict_from_string pot_string = Ok dicts →
  readlines (filename2 +:+ "00.dat") = Ok f →
  is_ok (token f 0 4) →
  1 ≤ i ≤ size dicts.1 →
  (∀ k, 1 ≤ k < i → is_ok (loadtxt (ldos_name filename2 k))) →
  loadtxt (ldos_name filename2 i) = Raise e →
  from_file filename1 filename2 = Raise e.
Proof.
  intros Hhs Hh Hps Hd Hf Htok Hi Hbefore Hfail. unfold from_file.
  rewrite Hhs. simpl. rewrite Hh. simpl. rewrite Hps. simpl.
  rewrite Hd. simpl. rewrite Hf. simpl.
  apply is_ok_Ok in Htok as [efermi Htok]. unfold token in Htok.
  apply bind_Ok in Htok as (l0 & Hl0 & Htok).
  apply bind_Ok in Htok as (tok & Htk & Hef).
  rewrite Hl0. simpl. rewrite Htk. simpl. rewrite Hef. simpl.
  assert (Hloop : for_each (range 1 (size dicts.1 + 1))
            (λ k ldos, arr ← loadtxt (ldos_name filename2 k);
                       Ok (<[Z.of_nat k := arr]> ldos))
            (∅ : gmap Z (ndarray float)) = Raise e).
  { unfold range. rewrite (seq_split 1 _ i) by lia.
    apply for_each_first_raise.
    - intros k ldos Hk. apply elem_of_seq in Hk.
      assert (Hok : is_ok (loadtxt (ldos_name filename2 k)))
        by (apply Hbefore; lia).
      apply is_ok_Ok in Hok as [arr ->]. done.
    - intros ldos. by rewrite Hfail. }
  by rewrite Hloop.
Qed.
End FirstError.

Lemma charge_transfer_first_error_witness :
  @read_entry Fixture.env "ldos" Runs.dicts.2 3 = Raise IOError
  ∧ LDos.charge_transfer_from_file
      (E := Runs.env_of Fixture.text_files Fixture.tables Fixture.sites
              ({[ "Co" := 1%Z; "O" := 2%Z; "H" := 3%Z ]}, Runs.dicts.2)
              (Ok "Co1 O2"))
      "feff.inp" "ldos"
    = Raise IOError.
Proof.
  split; [reflexivity|].
  apply (charge_transfer_first_error
           (E := Runs.env_of Fixture.text_files Fixture.tables Fixture.sites
                   ({[ "Co" := 1%Z; "O" := 2%Z; "H" := 3%Z ]}, Runs.dicts.2)
                   (Ok "Co1 O2"))
           "feff.inp" "ldos" Fixture.pot_string
           ({[ "Co" := 1%Z; "O" := 2%Z; "H" := 3%Z ]}, Runs.dicts.2) 3).
  - reflexivity.
  - reflexivity.
  - change (3 ≤ 3). lia.
  - intros k Hk.
    assert (k = 0 ∨ k = 1 ∨ k = 2) as Hcases by lia.
    destruct Hcases as [Hk0 | [Hk1 | Hk2]]; subst k; exact I.
  - reflexivity.
Defined.

Lemma from_file_first_table_error_witness :
  @loadtxt Fixture.env (LDos.ldos_name "ldos" 3) = Raise IOError
  ∧ LDos.from_file
      (E := Runs.env_of Fixture.text_files Fixture.tables Fixture.sites
              ({[ "Co" := 1%Z; "O" := 2%Z; "H" := 3%Z ]}, Runs.dicts.2)
              (Ok "Co1 O2"))
      "feff.inp" "ldos"
    = Raise IOError.
Proof.
  split; [reflexivity|].
  apply (from_file_first_table_error
           (E := Runs.env_of Fixture.text_files Fixture.tables Fixture.sites
                   ({[ "Co" := 1%Z; "O" := 2%Z; "H" := 3%Z ]}, Runs.dicts.2)
                   (Ok "Co1 O2"))
           "feff.inp" "ldos" "TITLE CoO2" Fixture.sites Fixture.pot_string
           ({[ "Co" := 1%Z; "O" := 2%Z; "H" := 3%Z ]}, Runs.dicts.2)
           (Fixture.header_lines "-9" "3" "1" "2" "0" "0") 3).
  - reflexivity.
  - reflexivity.
  - reflexivity.
  - reflexivity.
  - reflexivity.
  - exact I.
  - change (1 ≤ 3 ≤ 3). lia.
  - intros k Hk.
    assert (k = 1 ∨ k = 2) as Hcases by lia.
    destruct Hcases as [Hk1 | Hk2]; subst k; exact I.
  - reflexivity.
Defined.

Lemma to_string_errors_witness :
  (str 0 ∉ (LDos.charge_transfer Runs.stray_key).*1)
  ∧ call LDos.charge_transfer_to_string Runs.stray_key = Raise KeyError.
Proof.
  assert (Hmissing : str 0 ∉ (LDos.charge_transfer Runs.stray_key).*1).
  { intros Hin. apply list_elem_of_In in Hin. simpl in Hin.
    destruct Hin as [Heq|[]]. discriminate Heq. }
  split; [exact Hmissing|].
  apply (proj2 (to_string_errors (E := Fixture.env) Runs.stray_key) 0).
  - simpl. lia.
  - exact Hmissing.
Defined.

Lemma ldos_name_inj_witness :
  LDos.ldos_name "ldos" 3 = LDos.ldos_name "ldos" (1 + 2) ∧ 3 = 1 + 2.
Proof.
  split; [reflexivity|].
  apply (ldos_name_inj "ldos" 3 (1 + 2)). reflexivity.
Defined.
